(** * Denial management dashboard: the validation, filtering and
      aggregation pipeline of [denialmanagementapp.py]

    The script is a Streamlit page built on pandas.  The development has
    three layers:

    - [Pandas]: the data-frame operations the script calls ([read_csv],
      [getitem], [isin], [between], [fillna], [groupby ... sum],
      [sort_values], [head], [to_csv], [to_datetime]), written out as
      executable functions over an explicit table representation;
    - [App]: the script itself, line by line, over those operations; data
      frames are objects in a store, so that [df.copy()], boolean indexing
      (a new frame) and [fillna(..., inplace=True)] (a write to an existing
      frame) are told apart;
    - the properties of the pipeline.

    Scope of the model.  Numeric cells are whole numbers ([Z]), added
    exactly: the model stands for the program on amounts that are whole
    numbers small enough for float64 and int64 to add them without
    rounding or wrap-around.  A statement that compares sums taken in
    different groupings carries that bound as a hypothesis
    ([exact_amounts]); float64 addition itself does not regroup
    ([float64_bucket_sums_differ]).  A field of a CSV text is an integer
    literal, a missing-value spelling or a text: a decimal, exponent,
    infinity or boolean literal, which pandas reads as float64 or bool, is
    kept as text, and the statement that depends on the difference
    excludes such texts ([surely_text]).  A [claim_date] is a calendar
    date (year, month, day), a timestamp at midnight.  A CSV text is
    taken after its split into records and fields: the header record
    followed by one record per line.  Pandas semantics are those of the
    releases without copy-on-write, where an in-place [fillna] on a column
    selected from a frame writes through to that frame. *)

From Stdlib Require Import ZArith List String Ascii Bool Lia Permutation Sorted.
From Stdlib Require Import Decimal DecimalString DecimalZ DecimalPos.
From Stdlib Require PrimFloat.
Import ListNotations.
Local Open Scope string_scope.
Local Open Scope Z_scope.

(* ===================================================================== *)
(** ** Exceptions and the error monad *)

Inductive exn : Type :=
| ValueError (msg : string)
| KeyError (key : string)
| NameError (name : string)
| IndexError
| TypeError
| EmptyDataError
| ParserError.

Inductive result (A : Type) : Type :=
| Ok (a : A)
| Raise (e : exn).

Arguments Ok {A} a.
Arguments Raise {A} e.

Definition bind {A B : Type} (m : result A) (k : A -> result B) : result B :=
  match m with
  | Ok a => k a
  | Raise e => Raise e
  end.

Notation "x <- m ;; k" := (bind m (fun x => k))
  (at level 61, m at next level, right associativity).

(* ===================================================================== *)
(** ** Calendar dates *)

Record Timestamp : Type := mkTs { year : Z; month : Z; day : Z }.

Definition is_leap (y : Z) : bool :=
  (y mod 4 =? 0) && (negb (y mod 100 =? 0) || (y mod 400 =? 0)).

Definition days_in_month (y m : Z) : Z :=
  if m =? 2 then (if is_leap y then 29 else 28)
  else if (m =? 4) || (m =? 6) || (m =? 9) || (m =? 11) then 30
  else 31.

Definition valid_date (t : Timestamp) : bool :=
  (1 <=? year t) && (year t <=? 9999) &&
  (1 <=? month t) && (month t <=? 12) &&
  (1 <=? day t) && (day t <=? days_in_month (year t) (month t)).

(** Chronological order: lexicographic on (year, month, day). *)
Definition ts_leb (a b : Timestamp) : bool :=
  (year a <? year b) ||
  ((year a =? year b) &&
   ((month a <? month b) ||
    ((month a =? month b) && (day a <=? day b)))).

Definition ts_eqb (a b : Timestamp) : bool :=
  (year a =? year b) && (month a =? month b) && (day a =? day b).

(* ===================================================================== *)
(** ** Tables *)

Module Pandas.

(** A scalar of a frame.  [NaN] is the missing value of text and numeric
    columns, [NaT] the missing value of a datetime column. *)
Inductive cell : Type :=
| NaN
| Str (s : string)
| Num (z : Z)
| Ts (t : Timestamp)
| NaT.

Definition Series : Type := list cell.

Record DataFrame : Type := mkDF {
  columns : list string;
  rows : list (list cell)
}.

Definition cell_eqb (a b : cell) : bool :=
  match a, b with
  | NaN, NaN => true
  | Str s, Str s' => String.eqb s s'
  | Num z, Num z' => z =? z'
  | Ts t, Ts t' => ts_eqb t t'
  | NaT, NaT => true
  | _, _ => false
  end.

(** [pd.isna]. *)
Definition isna (c : cell) : bool :=
  match c with
  | NaN | NaT => true
  | _ => false
  end.

(** [name in df.columns]. *)
Definition mem (name : string) (l : list string) : bool :=
  existsb (String.eqb name) l.

Fixpoint index_of (name : string) (cols : list string) : option nat :=
  match cols with
  | [] => None
  | c :: cs =>
      if String.eqb c name then Some O
      else option_map S (index_of name cs)
  end.

(** The cell of a row at a column position; a row shorter than the header
    reads as missing there. *)
Definition at_col (i : nat) (r : list cell) : cell := nth i r NaN.

Fixpoint set_nth (i : nat) (v : cell) (r : list cell) : list cell :=
  match i, r with
  | O, [] => [v]
  | O, _ :: t => v :: t
  | S i', [] => NaN :: set_nth i' v []
  | S i', x :: t => x :: set_nth i' v t
  end.

(** [df[name]]: the column as a series, [KeyError] when absent. *)
Definition getitem (df : DataFrame) (name : string) : result Series :=
  match index_of name (columns df) with
  | Some i => Ok (map (at_col i) (rows df))
  | None => Raise (KeyError name)
  end.

(** [df[name] = s]: overwrite the column when it exists, append it
    otherwise. *)
Definition setitem (df : DataFrame) (name : string) (s : Series) : DataFrame :=
  match index_of name (columns df) with
  | Some i =>
      mkDF (columns df)
           (map (fun rv => set_nth i (snd rv) (fst rv)) (combine (rows df) s))
  | None =>
      mkDF (columns df ++ [name])
           (map (fun rv => set_nth (List.length (columns df)) (snd rv) (fst rv))
                (combine (rows df) s))
  end.

(** [df[mask]]: boolean indexing keeps the rows whose mask entry is true,
    in their order. *)
Fixpoint select (rs : list (list cell)) (mask : list bool) : list (list cell) :=
  match rs, mask with
  | r :: rs', b :: mask' => if b then r :: select rs' mask' else select rs' mask'
  | _, _ => []
  end.

Definition bool_index (df : DataFrame) (mask : list bool) : DataFrame :=
  mkDF (columns df) (select (rows df) mask).

(** [s.isin(values)]. *)
Definition isin (s : Series) (values : list cell) : list bool :=
  map (fun c => existsb (cell_eqb c) values) s.

(** [s.between(left, right)], both ends included; a missing value compares
    false. *)
Definition between_cell (left right : Timestamp) (c : cell) : bool :=
  match c with
  | Ts t => ts_leb left t && ts_leb t right
  | _ => false
  end.

Definition between (s : Series) (left right : Timestamp) : list bool :=
  map (between_cell left right) s.

(** [s.fillna(value)]. *)
Definition fillna (s : Series) (value : cell) : Series :=
  map (fun c => if isna c then value else c) s.

(** [s.sum()] on whole numbers: missing values are skipped; a text or
    datetime value is a [TypeError]. *)
Fixpoint sum (s : Series) : result Z :=
  match s with
  | [] => Ok 0
  | c :: s' =>
      match c with
      | Num z => t <- sum s' ;; Ok (z + t)
      | NaN | NaT => sum s'
      | Str _ | Ts _ => Raise TypeError
      end
  end.

(** [pd.to_datetime(s, errors="coerce")], over the conversion of one
    present scalar: a value that does not convert becomes [NaT]. *)
Definition to_datetime_cell (convert : cell -> option Timestamp) (c : cell) : cell :=
  match c with
  | NaN | NaT => NaT
  | Ts t => Ts t
  | Str _ | Num _ =>
      match convert c with
      | Some t => Ts t
      | None => NaT
      end
  end.

Definition to_datetime (convert : cell -> option Timestamp) (s : Series) : Series :=
  map (to_datetime_cell convert) s.

(* --------------------------------------------------------------------- *)
(** *** Delimited text: [read_csv] and [to_csv] *)

(** A CSV text after tokenisation: the header record, then one record of
    fields per line. *)
Definition CsvFile : Type := list (list string).

(** The default [na_values] of [read_csv]. *)
Definition NA_VALUES : list string :=
  [""; "#N/A"; "#N/A N/A"; "#NA"; "-1.#IND"; "-1.#QNAN"; "-NaN"; "-nan";
   "1.#IND"; "1.#QNAN"; "<NA>"; "N/A"; "NA"; "NULL"; "NaN"; "None";
   "n/a"; "nan"; "null"].

Definition is_na_field (f : string) : bool := mem f NA_VALUES.

(** An integer literal: digits with an optional sign. *)
Definition parse_int (f : string) : option Z :=
  match NilZero.int_of_string f with
  | Some d => Some (Z.of_int d)
  | None =>
      match f with
      | String "+" rest => option_map Z.of_uint (NilZero.uint_of_string rest)
      | _ => None
      end
  end.

Definition render_int (z : Z) : string := NilZero.string_of_int (Z.to_int z).

Definition is_int_field (f : string) : bool :=
  match parse_int f with
  | Some _ => true
  | None => false
  end.

(** Type inference of [read_csv] on one column, for fields that are
    integer literals, missing-value spellings or texts: the column is
    numeric when every present field is an integer literal, text
    otherwise. *)
Definition numeric_column (fields : list string) : bool :=
  forallb (fun f => is_na_field f || is_int_field f) fields.

Definition convert_field (numeric : bool) (f : string) : cell :=
  if is_na_field f then NaN
  else if numeric then
    match parse_int f with
    | Some z => Num z
    | None => Str f
    end
  else Str f.

Definition field_at (j : nat) (record : list string) : string := nth j record "".

Definition column_fields (j : nat) (records : list (list string)) : list string :=
  map (field_at j) records.

(** [pd.read_csv(file)]: the first record names the columns; a record
    with fewer fields than the header is completed with missing values,
    one with more is a [ParserError]; an empty text is an
    [EmptyDataError]. *)
Definition read_csv (file : CsvFile) : result DataFrame :=
  match file with
  | [] => Raise EmptyDataError
  | header :: records =>
      if existsb (fun r => (List.length header <? List.length r)%nat) records
      then Raise ParserError
      else
        let positions := seq 0 (List.length header) in
        Ok (mkDF header
              (map (fun r =>
                      map (fun j =>
                             convert_field
                               (numeric_column (column_fields j records))
                               (field_at j r))
                          positions)
                   records))
  end.

Definition digit_char (d : Z) : ascii := ascii_of_nat (48 + Z.to_nat d).

Definition digit_val (c : ascii) : option Z :=
  let n := Z.of_nat (nat_of_ascii c) in
  if (48 <=? n) && (n <=? 57) then Some (n - 48) else None.

(** A timestamp at midnight is written [YYYY-MM-DD]. *)
Definition render_ts (t : Timestamp) : string :=
  String (digit_char (year t / 1000 mod 10))
  (String (digit_char (year t / 100 mod 10))
  (String (digit_char (year t / 10 mod 10))
  (String (digit_char (year t mod 10))
  (String "-"
  (String (digit_char (month t / 10 mod 10))
  (String (digit_char (month t mod 10))
  (String "-"
  (String (digit_char (day t / 10 mod 10))
  (String (digit_char (day t mod 10)) EmptyString))))))))).

Definition render_cell (c : cell) : string :=
  match c with
  | NaN | NaT => ""
  | Str s => s
  | Num z => render_int z
  | Ts t => render_ts t
  end.

(** [df.to_csv(index=False)]: the header record, then one record per row,
    no index field. *)
Definition to_csv (df : DataFrame) : CsvFile :=
  columns df
  :: map (fun r =>
            map (fun j => render_cell (at_col j r))
                (seq 0 (List.length (columns df))))
         (rows df).

(** The date reader on the text form [YYYY-MM-DD]. *)
Definition parse_iso (s : string) : option Timestamp :=
  match s with
  | String y1 (String y2 (String y3 (String y4 (String "-"
      (String m1 (String m2 (String "-"
        (String d1 (String d2 EmptyString))))))))) =>
      match digit_val y1, digit_val y2, digit_val y3, digit_val y4,
            digit_val m1, digit_val m2, digit_val d1, digit_val d2 with
      | Some a, Some b, Some c, Some d, Some e, Some f, Some g, Some h =>
          let t := mkTs (1000 * a + 100 * b + 10 * c + d) (10 * e + f) (10 * g + h) in
          if valid_date t then Some t else None
      | _, _, _, _, _, _, _, _ => None
      end
  | _ => None
  end.

(** The scalar conversion of [to_datetime] on files whose dates are
    written [YYYY-MM-DD]. *)
Definition iso_convert (c : cell) : option Timestamp :=
  match c with
  | Str s => parse_iso s
  | _ => None
  end.

(* --------------------------------------------------------------------- *)
(** *** Grouping and sorting *)

Fixpoint mapM {A B : Type} (f : A -> result B) (l : list A) : result (list B) :=
  match l with
  | [] => Ok []
  | x :: l' => y <- f x ;; ys <- mapM f l' ;; Ok (y :: ys)
  end.

(** Insertion sort; an element goes in front of the first one it is below
    or equal to, so equal elements keep their order. *)
Fixpoint insert {A : Type} (leb : A -> A -> bool) (x : A) (l : list A) : list A :=
  match l with
  | [] => [x]
  | y :: l' => if leb x y then x :: l else y :: insert leb x l'
  end.

Definition isort {A : Type} (leb : A -> A -> bool) (l : list A) : list A :=
  fold_right (insert leb) [] l.

(** [s.unique()]: the distinct values in the order of their first
    occurrence. *)
Fixpoint unique (s : Series) : list cell :=
  match s with
  | [] => []
  | c :: s' => c :: filter (fun d => negb (cell_eqb d c)) (unique s')
  end.

(** [s.dropna()]. *)
Definition dropna (s : Series) : Series := filter (fun c => negb (isna c)) s.

(** The order of group keys: numbers by value, text by code point, dates
    by calendar; numbers before text before dates. *)
Definition cell_leb (a b : cell) : bool :=
  match a, b with
  | Num x, Num y => x <=? y
  | Num _, _ => true
  | Str _, Num _ => false
  | Str x, Str y => String.leb x y
  | Str _, _ => true
  | Ts _, (Num _ | Str _) => false
  | Ts x, Ts y => ts_leb x y
  | Ts _, _ => true
  | NaN, (Num _ | Str _ | Ts _) => false
  | NaN, _ => true
  | NaT, NaT => true
  | NaT, _ => false
  end.

(** The values of [v] on the rows where [k] has the key [g]. *)
Definition group_values (k v : Series) (g : cell) : Series :=
  map snd (filter (fun kv => cell_eqb (fst kv) g) (combine k v)).

(** [df.groupby(key)[val].sum().reset_index()]: one entry per distinct
    present key, keys ascending; rows with a missing key are dropped. *)
Definition groupby_sum (df : DataFrame) (key val : string) : result (list (cell * Z)) :=
  k <- getitem df key ;;
  v <- getitem df val ;;
  mapM (fun g => t <- sum (group_values k v g) ;; Ok (g, t))
       (isort cell_leb (unique (dropna k))).

(** [.sort_values(by the summed column, ascending=False)]. *)
Definition sort_values_desc {K : Type} (l : list (K * Z)) : list (K * Z) :=
  isort (fun a b => snd b <=? snd a) l.

(** [.head(n)]. *)
Definition head {A : Type} (n : nat) (l : list A) : list A := firstn n l.

(** [s.value_counts().reset_index()]: the number of rows per distinct
    present value, most frequent first. *)
Definition value_counts (s : Series) : list (cell * Z) :=
  sort_values_desc
    (map (fun g => (g, Z.of_nat (List.length (filter (cell_eqb g) s))))
         (unique (dropna s))).

(** Month arithmetic for [pd.Grouper(freq="M")]: months are numbered
    consecutively, and a month bin is labelled by its last day. *)
Definition month_index (t : Timestamp) : Z := year t * 12 + (month t - 1).

Definition month_end (idx : Z) : Timestamp :=
  let y := idx / 12 in
  let m := idx mod 12 + 1 in
  mkTs y m (days_in_month y m).

(** The month of each row of a datetime column ([None] for [NaT]); a
    column holding anything else is not datetime-like. *)
Definition month_keys (k : Series) : result (list (option Z)) :=
  mapM (fun c =>
          match c with
          | Ts t => Ok (Some (month_index t))
          | NaT => Ok None
          | _ => Raise TypeError
          end) k.

Definition month_values (mk : list (option Z)) (v : Series) (m : Z) : Series :=
  map snd
    (filter (fun kv => match fst kv with Some i => i =? m | None => false end)
       (combine mk v)).

Definition present_months (mk : list (option Z)) : list Z :=
  flat_map (fun o => match o with Some i => [i] | None => [] end) mk.

(** The consecutive integers from [lo] to [hi]. *)
Definition zrange (lo hi : Z) : list Z :=
  map (fun n => lo + Z.of_nat n) (seq 0 (Z.to_nat (hi - lo + 1))).

(** [df.groupby(pd.Grouper(key=key, freq="M"))[val].sum().reset_index()]:
    one bin per calendar month from the earliest to the latest dated row,
    the months without rows included with sum 0; rows without a date are
    left out.  A frame without rows has no bins; with rows but no date
    among them the range of bins has no ends, a [ValueError]. *)
Definition groupby_month_sum (df : DataFrame) (key val : string)
  : result (list (Timestamp * Z)) :=
  k <- getitem df key ;;
  mk <- month_keys k ;;
  v <- getitem df val ;;
  match present_months mk with
  | [] =>
      match k with
      | [] => Ok []
      | _ :: _ => Raise (ValueError "Neither `start` nor `end` can be NaT")
      end
  | i :: rest =>
      let lo := fold_right Z.min i rest in
      let hi := fold_right Z.max i rest in
      mapM (fun m => t <- sum (month_values mk v m) ;; Ok (month_end m, t))
           (zrange lo hi)
  end.

(** [.sort_values(by the datetime column)], ascending. *)
Definition sort_values_ts {V : Type} (l : list (Timestamp * V)) : list (Timestamp * V) :=
  isort (fun a b => ts_leb (fst a) (fst b)) l.

(* --------------------------------------------------------------------- *)
(** *** Extremes of a datetime column *)

Definition ts_min (a b : Timestamp) : Timestamp := if ts_leb a b then a else b.

Definition ts_max (a b : Timestamp) : Timestamp := if ts_leb a b then b else a.

(** The dates of a datetime column, [NaT] left out; a column holding
    anything else is not datetime-like. *)
Fixpoint datetimes (s : Series) : result (list Timestamp) :=
  match s with
  | [] => Ok []
  | c :: s' =>
      match c with
      | Ts t => ts <- datetimes s' ;; Ok (t :: ts)
      | NaT => datetimes s'
      | NaN | Str _ | Num _ => Raise TypeError
      end
  end.

(** [s.min()] on a datetime column: the earliest date, [NaT] when there
    is none. *)
Definition series_min (s : Series) : result cell :=
  ts <- datetimes s ;;
  Ok (match ts with
      | [] => NaT
      | t :: rest => Ts (fold_right ts_min t rest)
      end).

(** [s.max()] on a datetime column. *)
Definition series_max (s : Series) : result cell :=
  ts <- datetimes s ;;
  Ok (match ts with
      | [] => NaT
      | t :: rest => Ts (fold_right ts_max t rest)
      end).

End Pandas.

(* ===================================================================== *)
(** ** The script *)

Module App.
Import Pandas.

Definition EXPECTED_COLUMNS : list string :=
  ["ICD10_Code"; "CPT_Code"; "claim_date"; "Patient_Age"; "Gender"; "Region";
   "Provider_Specialty"; "Hospital_Type"; "Claim_Status"; "Claimed_Amount";
   "Approved_Amount"; "Denied_amount"; "Denial_reason"].

(** [', '.join(l)]. *)
Fixpoint join (sep : string) (l : list string) : string :=
  match l with
  | [] => ""
  | [x] => x
  | x :: l' => x ++ sep ++ join sep l'
  end.

Section WithDateReader.

(** The conversion [pd.to_datetime] applies to one present scalar. *)
Variable convert : cell -> option Timestamp.

(** [load_data], lines 19-26, after [pd.read_csv]. *)
Definition check_and_normalize (df : DataFrame) : result DataFrame :=
  let missing_cols := filter (fun col => negb (mem col (columns df))) EXPECTED_COLUMNS in
  match missing_cols with
  | _ :: _ =>
      Raise (ValueError ("The uploaded file is missing these columns: "
                         ++ join ", " missing_cols))
  | [] =>
      if mem "claim_date" (columns df) then
        s <- getitem df "claim_date" ;;
        Ok (setitem df "claim_date" (to_datetime convert s))
      else Ok df
  end.

Definition load_data (uploaded_file : CsvFile) : result DataFrame :=
  df <- read_csv uploaded_file ;;
  check_and_normalize df.

End WithDateReader.

(** *** The filter, lines 155-163 and 238-246, on frame values *)

Definition nonempty {A : Type} (l : list A) : bool :=
  match l with
  | [] => false
  | _ :: _ => true
  end.

(** [t[i]] on a tuple. *)
Definition tuple_item {A : Type} (t : list A) (i : nat) : result A :=
  match nth_error t i with
  | Some x => Ok x
  | None => Raise IndexError
  end.

Definition filter_rows (df : DataFrame)
    (selected_region selected_specialty : list cell)
    (selected_date : list Timestamp) : result DataFrame :=
  let filtered_df := df in
  filtered_df <-
    (if nonempty selected_region then
       s <- getitem filtered_df "Region" ;;
       Ok (bool_index filtered_df (isin s selected_region))
     else Ok filtered_df) ;;
  filtered_df <-
    (if nonempty selected_specialty then
       s <- getitem filtered_df "Provider_Specialty" ;;
       Ok (bool_index filtered_df (isin s selected_specialty))
     else Ok filtered_df) ;;
  if nonempty selected_date then
    s <- getitem filtered_df "claim_date" ;;
    d0 <- tuple_item selected_date 0 ;;
    d1 <- tuple_item selected_date 1 ;;
    Ok (bool_index filtered_df (between s d0 d1))
  else Ok filtered_df.

(** *** The aggregates on frame values *)

Record Totals : Type := mkTotals {
  total_claims : Z;
  total_claimed : Z;
  total_approved : Z;
  total_denied : Z
}.

(** Lines 168-171. *)
Definition totals (filtered_df : DataFrame) : result Totals :=
  let n := Z.of_nat (List.length (rows filtered_df)) in
  claimed <- (s <- getitem filtered_df "Claimed_Amount" ;; sum s) ;;
  approved <- (s <- getitem filtered_df "Approved_Amount" ;; sum s) ;;
  denied <- (s <- getitem filtered_df "Denied_amount" ;; sum s) ;;
  Ok (mkTotals n claimed approved denied).

(** Lines 180-182. *)
Definition status_table (filtered_df : DataFrame) : result (option (list (cell * Z))) :=
  if mem "Claim_Status" (columns filtered_df) then
    s <- getitem filtered_df "Claim_Status" ;;
    Ok (Some (value_counts s))
  else Ok None.

(** Lines 189-190. *)
Definition region_table (filtered_df : DataFrame) : result (option (list (cell * Z))) :=
  if mem "Region" (columns filtered_df) then
    t <- groupby_sum filtered_df "Region" "Denied_amount" ;;
    Ok (Some t)
  else Ok None.

(** Lines 197-203. *)
Definition trend_table (filtered_df : DataFrame) : result (option (list (Timestamp * Z))) :=
  if mem "claim_date" (columns filtered_df) then
    t <- groupby_month_sum filtered_df "claim_date" "Denied_amount" ;;
    Ok (Some (sort_values_ts t))
  else Ok None.

(** Line 249 as a function of the frame: the frame the in-place [fillna]
    leaves behind. *)
Definition fill_unknown (filtered_df : DataFrame) : result DataFrame :=
  s <- getitem filtered_df "Denial_reason" ;;
  Ok (setitem filtered_df "Denial_reason" (fillna s (Str "Unknown"))).

(** Lines 250-256. *)
Definition summary_table (filled_df : DataFrame) : result (list (cell * Z)) :=
  t <- groupby_sum filled_df "Denial_reason" "Denied_amount" ;;
  Ok (head 10 (sort_values_desc t)).

(** *** Objects: frames in a store *)

Definition ref : Type := nat.

Record Store : Type := mkStore {
  frames : list DataFrame;          (* the frame objects, by reference *)
  session_data : option ref         (* [st.session_state.data] *)
}.

Definition M (A : Type) : Type := Store -> result A * Store.

Definition ret {A : Type} (a : A) : M A := fun st => (Ok a, st).

Definition bindM {A B : Type} (m : M A) (k : A -> M B) : M B :=
  fun st =>
    match m st with
    | (Ok a, st') => k a st'
    | (Raise e, st') => (Raise e, st')
    end.

Notation "x <~ m ;; k" := (bindM m (fun x => k))
  (at level 61, m at next level, right associativity).

Definition lift {A : Type} (r : result A) : M A := fun st => (r, st).

Definition raise {A : Type} (e : exn) : M A := fun st => (Raise e, st).

(** [try: body except Exception as e: handler]. *)
Definition try_except {A : Type} (body : M A) (handler : exn -> M A) : M A :=
  fun st =>
    match body st with
    | (Ok a, st') => (Ok a, st')
    | (Raise e, st') => handler e st'
    end.

(** A new frame object. *)
Definition new (df : DataFrame) : M ref :=
  fun st => (Ok (List.length (frames st)),
             mkStore (frames st ++ [df]) (session_data st)).

(** The frame of an object.  A reference always denotes an object; the
    error case makes the function total. *)
Definition read (l : ref) : M DataFrame :=
  fun st =>
    match nth_error (frames st) l with
    | Some df => (Ok df, st)
    | None => (Raise (NameError "unbound"), st)
    end.

Fixpoint update {A : Type} (l : list A) (i : nat) (x : A) : list A :=
  match l, i with
  | [], _ => []
  | _ :: t, O => x :: t
  | y :: t, S i' => y :: update t i' x
  end.

(** A write into an existing frame object. *)
Definition write (l : ref) (df : DataFrame) : M unit :=
  fun st => (Ok tt, mkStore (update (frames st) l df) (session_data st)).

Definition get_session_data : M (option ref) :=
  fun st => (Ok (session_data st), st).

Definition set_session_data (l : ref) : M unit :=
  fun st => (Ok tt, mkStore (frames st) (Some l)).

(** [df.copy()]. *)
Definition copy (l : ref) : M ref :=
  df <~ read l ;; new df.

(** *** The filter on objects: every step that filters builds a new frame
    and rebinds [filtered_df] to it *)

Definition apply_filters (df : ref)
    (selected_region selected_specialty : list cell)
    (selected_date : list Timestamp) : M ref :=
  filtered_df <~ copy df ;;
  filtered_df <~
    (if nonempty selected_region then
       f <~ read filtered_df ;;
       s <~ lift (getitem f "Region") ;;
       new (bool_index f (isin s selected_region))
     else ret filtered_df) ;;
  filtered_df <~
    (if nonempty selected_specialty then
       f <~ read filtered_df ;;
       s <~ lift (getitem f "Provider_Specialty") ;;
       new (bool_index f (isin s selected_specialty))
     else ret filtered_df) ;;
  if nonempty selected_date then
    f <~ read filtered_df ;;
    s <~ lift (getitem f "claim_date") ;;
    d0 <~ lift (tuple_item selected_date 0) ;;
    d1 <~ lift (tuple_item selected_date 1) ;;
    new (bool_index f (between s d0 d1))
  else ret filtered_df.

(** *** The five aggregates on the object [filtered_df] *)

Definition kpis (filtered_df : ref) : M Totals :=
  f <~ read filtered_df ;; lift (totals f).

Definition status_chart (filtered_df : ref) : M (option (list (cell * Z))) :=
  f <~ read filtered_df ;; lift (status_table f).

Definition denied_by_region (filtered_df : ref) : M (option (list (cell * Z))) :=
  f <~ read filtered_df ;; lift (region_table f).

Definition trend (filtered_df : ref) : M (option (list (Timestamp * Z))) :=
  f <~ read filtered_df ;; lift (trend_table f).

(** Lines 249-256: the in-place [fillna] writes into the object, then the
    summary is computed from it. *)
Definition denial_summary (filtered_df : ref) : M (list (cell * Z)) :=
  f <~ read filtered_df ;;
  filled <~ lift (fill_unknown f) ;;
  _ <~ write filtered_df filled ;;
  f' <~ read filtered_df ;;
  lift (summary_table f').

(** [download_button], lines 28-35: the CSV payload (the spreadsheet
    payload is not represented). *)
Definition download_button (df : ref) : M CsvFile :=
  f <~ read df ;; ret (to_csv f).

(** *** The two pages *)

Record HomeView : Type := mkHomeView {
  home_kpis : Totals;
  home_status : option (list (cell * Z));
  home_region : option (list (cell * Z));
  home_trend : option (list (Timestamp * Z));
  home_csv : CsvFile
}.

Section Pages.

Variable convert : cell -> option Timestamp.

(** Lines 128-211.  The name [df] is bound only when [load_data]
    returned; the statements after the [try] use it in either case. *)
Definition home_page (uploaded_file : option CsvFile)
    (selected_region selected_specialty : list cell)
    (selected_date : list Timestamp) : M (option HomeView) :=
  match uploaded_file with
  | None => ret None
  | Some file =>
      df <~ try_except
              (loaded <~ lift (load_data convert file) ;;
               df <~ new loaded ;;
               _ <~ set_session_data df ;;
               ret (Some df))
              (fun e => ret None) ;;
      match df with
      | None => raise (NameError "df")
      | Some df =>
          filtered_df <~ apply_filters df selected_region selected_specialty selected_date ;;
          k <~ kpis filtered_df ;;
          s <~ status_chart filtered_df ;;
          r <~ denied_by_region filtered_df ;;
          t <~ trend filtered_df ;;
          csv <~ download_button filtered_df ;;
          ret (Some (mkHomeView k s r t csv))
      end
  end.

(** Lines 214-274. *)
Definition top_denial_page
    (selected_region selected_specialty : list cell)
    (selected_date : list Timestamp) : M (option (list (cell * Z) * CsvFile)) :=
  data <~ get_session_data ;;
  match data with
  | None => ret None
  | Some df =>
      filtered_df <~ apply_filters df selected_region selected_specialty selected_date ;;
      summary <~ denial_summary filtered_df ;;
      csv <~ download_button filtered_df ;;
      ret (Some (summary, csv))
  end.

End Pages.

(** *** The filter widgets, lines 142-151 and 225-234 *)

(** [df[name].dropna().unique().tolist()]: the options of a
    multi-selection, which are also its default selection. *)
Definition column_options (df : DataFrame) (name : string) : result (list cell) :=
  s <- getitem df name ;;
  Ok (unique (dropna s)).

(** [min_date] and [max_date], the default value of the date input. *)
Definition date_bounds (df : DataFrame) : result (option (cell * cell)) :=
  if mem "claim_date" (columns df) then
    s <- getitem df "claim_date" ;;
    min_date <- series_min s ;;
    max_date <- series_max s ;;
    Ok (Some (min_date, max_date))
  else Ok None.

(** *** The name of the spreadsheet download, line 47 *)

Fixpoint between_chars (new s : string) : string :=
  match s with
  | EmptyString => EmptyString
  | String c s' => String c (new ++ between_chars new s')
  end.

(** The scan of [str.replace] for a non-empty [old]: left to right, an
    occurrence of [old] is replaced and the scan resumes after it
    ([skip] counts the characters of the occurrence still to pass). *)
Fixpoint replace_from (old new : string) (skip : nat) (s : string) : string :=
  match s with
  | EmptyString => EmptyString
  | String c s' =>
      match skip with
      | S n => replace_from old new n s'
      | O =>
          if String.prefix old s
          then new ++ replace_from old new (String.length old - 1) s'
          else String c (replace_from old new O s')
      end
  end.

(** [s.replace(old, new)]; with an empty [old], [new] goes before every
    character and at the end. *)
Definition replace (old new s : string) : string :=
  match old with
  | EmptyString => new ++ between_chars new s
  | String _ _ => replace_from old new O s
  end.

(** [filename.replace(".csv", ".xlsx")]. *)
Definition excel_file_name (filename : string) : string :=
  replace ".csv" ".xlsx" filename.

End App.

Import Pandas App.

(* ===================================================================== *)
(** ** Definitions used by the statements *)

(** *** Columns and frames *)

(** The frame has every required column. *)
Definition has_schema (df : DataFrame) : bool :=
  forallb (fun col => mem col (columns df)) EXPECTED_COLUMNS.


(** A numeric column: numbers and missing values only. *)
Definition numeric (s : Series) : bool :=
  forallb (fun c => match c with Num _ | NaN => true | _ => false end) s.

(** A datetime column: dates and [NaT] only. *)
Definition datetime (s : Series) : bool :=
  forallb (fun c => match c with Ts _ | NaT => true | _ => false end) s.

(** What [read_csv] can put in a cell: a missing value, a number, or a
    text that is not one of the missing-value spellings (the empty field
    among them). *)
Definition csv_cell (c : cell) : Prop :=
  match c with
  | NaN | Num _ => True
  | Str s => is_na_field s = false
  | Ts _ | NaT => False
  end.

(** The amounts that are present in a column. *)
Definition present_values (s : Series) : list Z :=
  flat_map (fun c => match c with Num z => [z] | _ => [] end) s.

Definition zsum (l : list Z) : Z := fold_right Z.add 0 l.

(** A missing amount read as zero. *)
Definition amount_or_zero (c : cell) : Z :=
  match c with
  | Num z => z
  | _ => 0
  end.

(** Whole-number amounts that pandas adds up without rounding or
    wrap-around, in whatever order and grouping: their absolute values add
    up to less than 2^53, so every partial sum is an integer that float64
    and int64 both hold exactly. *)
Definition exact_amounts (s : Series) : bool :=
  zsum (map Z.abs (present_values s)) <? 2 ^ 53.

(** Amounts with decimals are float64 values, outside the whole numbers
    of the model; this is how they are added. *)
Module Float64.
Import PrimFloat.
#[local] Set Warnings "-inexact-float".

(** [s.sum()] on a float64 column of a few values: one running total
    over the values in row order, each addition rounded to the nearest
    float64. *)
Definition float64_sum (l : list float) : float := fold_left add l 0%float.

(** Three denied amounts, of rows dated in January, February and January. *)
Definition january_first : float := 672.69%float.
Definition february : float := 4237.32%float.
Definition january_second : float := 3819.11%float.

End Float64.

(** *** The store *)

(** [st'] has the objects of [st], unchanged, and possibly new ones. *)
Definition extends (st st' : Store) : Prop :=
  session_data st' = session_data st /\
  exists extra, frames st' = (frames st ++ extra)%list.

(** *** The filter contract *)

(** The predicates of the filter contract, in the words of the
    specification: a selection set passes every row when it is empty, and
    otherwise the rows whose value is one of its members; a bounded date
    range passes the rows with a date inside it, both ends included. *)
Definition spec_member_pass (selection : list cell) (c : cell) : bool :=
  match selection with
  | [] => true
  | _ :: _ => existsb (cell_eqb c) selection
  end.

Definition spec_date_pass (start stop : Timestamp) (c : cell) : bool :=
  match c with
  | Ts t => ts_leb start t && ts_leb t stop
  | NaN | NaT | Str _ | Num _ => false
  end.

(** *** Loading *)

(** The required columns the frame does not have, as line 21 computes
    them. *)
Definition missing_columns (df : DataFrame) : list string :=
  filter (fun col => negb (mem col (columns df))) EXPECTED_COLUMNS.

(** The frame [load_data] returns for a frame with the required columns:
    the same columns, and in each row the [claim_date] cell converted. *)
Definition normalized (convert : cell -> option Timestamp) (k : nat)
    (df : DataFrame) : DataFrame :=
  mkDF (columns df)
       (map (fun r => set_nth k (to_datetime_cell convert (at_col k r)) r)
            (rows df)).

(** *** Top denial reasons *)

(** The frame line 249 leaves in the object: every missing
    [Denial_reason] replaced by the text [Unknown]. *)
Definition unknown_filled (k : nat) (df : DataFrame) : DataFrame :=
  mkDF (columns df)
       (map (fun r =>
               set_nth k (if isna (at_col k r) then Str "Unknown" else at_col k r) r)
            (rows df)).

(** The category of a row: its [Denial_reason], or [Unknown] when that is
    missing. *)
Definition spec_reason (c : cell) : cell :=
  if isna c then Str "Unknown" else c.

Definition reasons (df : DataFrame) (k : nat) : list cell :=
  map (fun r => spec_reason (at_col k r)) (rows df).

(** The denied amount summed over the rows of one category. *)
Definition reason_total (df : DataFrame) (k v : nat) (g : cell) : Z :=
  zsum (map (fun r => amount_or_zero (at_col v r))
            (filter (fun r => cell_eqb (spec_reason (at_col k r)) g) (rows df))).

Definition reason_groups (df : DataFrame) (k v : nat) : list (cell * Z) :=
  map (fun g => (g, reason_total df k v g)) (isort cell_leb (unique (reasons df k))).

Definition top_reasons (df : DataFrame) (k v : nat) : list (cell * Z) :=
  head 10 (sort_values_desc (reason_groups df k v)).

(** *** Monthly trend *)

Definition cell_month (c : cell) : option Z :=
  match c with
  | Ts t => Some (month_index t)
  | _ => None
  end.

(** The row is dated in the month numbered [m]. *)
Definition in_month (k : nat) (m : Z) (r : list cell) : bool :=
  match cell_month (at_col k r) with
  | Some i => i =? m
  | None => false
  end.


(** The denied amount summed over the rows dated in one month. *)
Definition month_total (df : DataFrame) (k v : nat) (m : Z) : Z :=
  zsum (map (fun r => amount_or_zero (at_col v r))
            (filter (in_month k m) (rows df))).

Definition dated_months (df : DataFrame) (k : nat) : list Z :=
  present_months (map (fun r => cell_month (at_col k r)) (rows df)).

(** The months from the earliest to the latest dated row. *)
Definition month_span (df : DataFrame) (k : nat) : list Z :=
  match dated_months df k with
  | [] => []
  | i :: rest => zrange (fold_right Z.min i rest) (fold_right Z.max i rest)
  end.

Definition monthly_trend (df : DataFrame) (k v : nat) : list (Timestamp * Z) :=
  map (fun m => (month_end m, month_total df k v m)) (month_span df k).

(** The frame has a dated row, or no row at all. *)
Definition some_date_or_no_row (df : DataFrame) (k : nat) : bool :=
  match dated_months df k, rows df with
  | _ :: _, _ => true
  | [], [] => true
  | [], _ :: _ => false
  end.

(** *** Export and re-import *)

Definition digits : list ascii :=
  ["0"; "1"; "2"; "3"; "4"; "5"; "6"; "7"; "8"; "9"]%char.






(** A character of a number literal: a digit, a sign, the decimal point,
    the exponent mark, or white space. *)
Definition blank (c : ascii) : bool :=
  let n := nat_of_ascii c in
  ((n =? 32) || ((9 <=? n) && (n <=? 13)))%nat.

Definition number_char (c : ascii) : bool :=
  existsb (Ascii.eqb c) (digits ++ ["+"; "-"; "."; "e"; "E"]%char) || blank c.

Fixpoint all_chars (p : ascii -> bool) (s : string) : bool :=
  match s with
  | EmptyString => true
  | String c s' => p c && all_chars p s'
  end.

Definition lower (c : ascii) : ascii :=
  let n := nat_of_ascii c in
  if ((65 <=? n) && (n <=? 90))%nat then ascii_of_nat (n + 32) else c.

(** The text in lower case, without its signs and white space. *)
Fixpoint bare_word (s : string) : string :=
  match s with
  | EmptyString => EmptyString
  | String c s' =>
      if blank c || Ascii.eqb c "+" || Ascii.eqb c "-" then bare_word s'
      else String (lower c) (bare_word s')
  end.

(** The words pandas reads as a boolean or as a float64, in any case. *)
Definition LITERAL_WORDS : list string :=
  ["true"; "false"; "inf"; "infinity"; "nan"].

(** A text that [read_csv] cannot take for a number or a boolean: it has a
    character that no number literal has, and it is not one of the
    literal words. *)
Definition surely_text (s : string) : bool :=
  negb (all_chars number_char s) && negb (mem (bare_word s) LITERAL_WORDS).

(** A column that pandas reads back from its rendering as it is, whatever
    the other rows of the file: whole numbers below 2^53 in absolute
    value and missing values only, or missing values and texts only, each
    text neither a missing-value spelling nor readable as a number or a
    boolean. *)
Definition reloadable (col : Series) : bool :=
  forallb (fun c => match c with
                    | NaN => true
                    | Num z => Z.abs z <? 2 ^ 53
                    | _ => false
                    end) col
  || forallb (fun c => match c with
                       | NaN => true
                       | Str s => negb (is_na_field s) && surely_text s
                       | _ => false
                       end) col.



(** *** The pages on frame values *)

Definition present (c : cell) : bool := negb (isna c).

Definition all_missing (s : Series) : bool := forallb isna s.

(** The date predicate of a selection: the range of its first two dates,
    or every row when the selection is empty. *)
Definition date_pass (selected_date : list Timestamp) (c : cell) : bool :=
  match selected_date with
  | start :: stop :: _ => between_cell start stop c
  | _ => true
  end.

(** The rows a selection keeps, by column positions. *)
Definition kept (sr ss : list cell) (sd : list Timestamp) (i j k : nat)
    (r : list cell) : bool :=
  spec_member_pass sr (at_col i r) && spec_member_pass ss (at_col j r)
  && date_pass sd (at_col k r).

(** What the home page shows for a loaded frame and a selection. *)
Definition home_view (loaded : DataFrame) (sr ss : list cell)
    (sd : list Timestamp) : result (option HomeView) :=
  f <- filter_rows loaded sr ss sd ;;
  k <- totals f ;;
  s <- status_table f ;;
  r <- region_table f ;;
  t <- trend_table f ;;
  Ok (Some (mkHomeView k s r t (to_csv f))).

(** What the page of the top denial reasons shows for the dataset of the
    session and a selection. *)
Definition top_view (canon : DataFrame) (sr ss : list cell)
    (sd : list Timestamp) : result (option (list (cell * Z) * CsvFile)) :=
  f <- filter_rows canon sr ss sd ;;
  filled <- fill_unknown f ;;
  summary <- summary_table filled ;;
  Ok (Some (summary, to_csv filled)).

(** The number of rows holding the value [g] in a column. *)
Definition count_of (s : Series) (g : cell) : Z :=
  Z.of_nat (List.length (filter (cell_eqb g) s)).

(** The denied amount summed over the rows of one region. *)
Definition region_total (df : DataFrame) (i v : nat) (g : cell) : Z :=
  zsum (map (fun r => amount_or_zero (at_col v r))
            (filter (fun r => cell_eqb (at_col i r) g) (rows df))).

(** The text has no full stop. *)
Fixpoint no_dot (s : string) : bool :=
  match s with
  | EmptyString => true
  | String c s' => negb (Ascii.eqb c ".") && no_dot s'
  end.

(** *** Example data: the sample file of the home page, lines 80-94, and variations *)

Definition sample_file : CsvFile :=
  [EXPECTED_COLUMNS;
   ["A00"; "12345"; "2025-01-01"; "34"; "M"; "North"; "Cardiology";
    "Private"; "Approved"; "1000"; "1000"; "0"; ""];
   ["B00"; "67890"; "2025-02-15"; "45"; "F"; "South"; "Orthopedics";
    "Public"; "Denied"; "2000"; "0"; "2000"; "Missing info"]].

Definition sample_df : DataFrame :=
  mkDF EXPECTED_COLUMNS
    [[Str "A00"; Num 12345; Ts (mkTs 2025 1 1); Num 34; Str "M"; Str "North";
      Str "Cardiology"; Str "Private"; Str "Approved"; Num 1000; Num 1000;
      Num 0; NaN];
     [Str "B00"; Num 67890; Ts (mkTs 2025 2 15); Num 45; Str "F"; Str "South";
      Str "Orthopedics"; Str "Public"; Str "Denied"; Num 2000; Num 0;
      Num 2000; Str "Missing info"]].

(** A frame with one complete row and one row whose three amounts are
    missing. *)
Definition partial_amounts_df : DataFrame :=
  mkDF EXPECTED_COLUMNS
    [[Str "A00"; Num 12345; Ts (mkTs 2025 1 1); Num 34; Str "M"; Str "North";
      Str "Cardiology"; Str "Private"; Str "Approved"; Num 1000; Num 700;
      Num 300; NaN];
     [Str "B00"; Num 67890; Ts (mkTs 2025 2 15); Num 45; Str "F"; Str "South";
      Str "Orthopedics"; Str "Public"; Str "Denied"; NaN; NaN; NaN;
      Str "Missing info"]].

(** A file without the columns [Region] and [Denial_reason]. *)
Definition two_missing_file : CsvFile :=
  [["ICD10_Code"; "CPT_Code"; "claim_date"; "Patient_Age"; "Gender";
    "Provider_Specialty"; "Hospital_Type"; "Claim_Status"; "Claimed_Amount";
    "Approved_Amount"; "Denied_amount"];
   ["A00"; "12345"; "2025-01-01"; "34"; "M"; "Cardiology"; "Private";
    "Approved"; "1000"; "1000"; "0"]].

Definition two_missing_df : DataFrame :=
  mkDF ["ICD10_Code"; "CPT_Code"; "claim_date"; "Patient_Age"; "Gender";
        "Provider_Specialty"; "Hospital_Type"; "Claim_Status"; "Claimed_Amount";
        "Approved_Amount"; "Denied_amount"]
       [[Str "A00"; Num 12345; Str "2025-01-01"; Num 34; Str "M";
         Str "Cardiology"; Str "Private"; Str "Approved"; Num 1000; Num 1000;
         Num 0]].

(** A file whose three rows carry a well-formed date, a text that is no
    date, and an empty date field. *)
Definition mixed_dates_file : CsvFile :=
  [EXPECTED_COLUMNS;
   ["A00"; "12345"; "2025-01-01"; "34"; "M"; "North"; "Cardiology";
    "Private"; "Approved"; "1000"; "1000"; "0"; ""];
   ["B00"; "67890"; "not a date"; "45"; "F"; "South"; "Orthopedics";
    "Public"; "Denied"; "2000"; "0"; "2000"; "Missing info"];
   ["C00"; "11111"; ""; "50"; "F"; "East"; "Oncology";
    "Public"; "Denied"; "500"; "0"; "500"; "Late filing"]].

Definition mixed_dates_df : DataFrame :=
  mkDF EXPECTED_COLUMNS
   [[Str "A00"; Num 12345; Str "2025-01-01"; Num 34; Str "M"; Str "North";
     Str "Cardiology"; Str "Private"; Str "Approved"; Num 1000; Num 1000;
     Num 0; NaN];
    [Str "B00"; Num 67890; Str "not a date"; Num 45; Str "F"; Str "South";
     Str "Orthopedics"; Str "Public"; Str "Denied"; Num 2000; Num 0;
     Num 2000; Str "Missing info"];
    [Str "C00"; Num 11111; NaN; Num 50; Str "F"; Str "East"; Str "Oncology";
     Str "Public"; Str "Denied"; Num 500; Num 0; Num 500; Str "Late filing"]].

(** Twelve rows in twelve categories, one of them without a reason. *)
Definition many_reasons_df : DataFrame :=
  mkDF ["Denied_amount"; "Denial_reason"]
    [[Num 5; Str "Coding error"]; [Num 70; Str "Missing info"];
     [Num 20; Str "Late filing"]; [Num 15; Str "Duplicate claim"];
     [Num 90; Str "Not covered"]; [Num 10; Str "No authorization"];
     [Num 30; Str "Out of network"]; [Num 25; Str "Eligibility"];
     [Num 60; NaN]; [Num 1; Str "Bundled service"];
     [Num 45; Str "Medical necessity"]; [Num 2; Str "Wrong provider"]].

(** A frame with dated rows in January and March 2025 and one row without
    a date. *)
Definition gap_df : DataFrame :=
  mkDF EXPECTED_COLUMNS
    [[Str "A00"; Num 12345; Ts (mkTs 2025 1 1); Num 34; Str "M"; Str "North";
      Str "Cardiology"; Str "Private"; Str "Denied"; Num 1000; Num 900;
      Num 100; Str "Coding error"];
     [Str "B00"; Num 67890; NaT; Num 45; Str "F"; Str "South";
      Str "Orthopedics"; Str "Public"; Str "Denied"; Num 2000; Num 0;
      Num 2000; Str "Missing info"];
     [Str "C00"; Num 11111; Ts (mkTs 2025 3 20); Num 50; Str "F"; Str "East";
      Str "Oncology"; Str "Public"; Str "Denied"; Num 500; Num 0; Num 500;
      Str "Late filing"]].


Definition codes_df : DataFrame :=
  mkDF EXPECTED_COLUMNS
    [[Str "A00"; Str "00100"; Ts (mkTs 2025 1 1); Num 34; Str "M"; Str "North";
      Str "Cardiology"; Str "Private"; Str "Approved"; Num 1000; Num 1000;
      Num 0; NaN];
     [Str "B00"; Str "G0008"; Ts (mkTs 2025 2 15); Num 45; Str "F"; Str "South";
      Str "Orthopedics"; Str "Public"; Str "Denied"; Num 2000; Num 0;
      Num 2000; Str "Missing info"]].

(** Its rows of the region North. *)
Definition north_df : DataFrame :=
  mkDF EXPECTED_COLUMNS
    [[Str "A00"; Str "00100"; Ts (mkTs 2025 1 1); Num 34; Str "M"; Str "North";
      Str "Cardiology"; Str "Private"; Str "Approved"; Num 1000; Num 1000;
      Num 0; NaN]].


(* ===================================================================== *)
(** ** Facts about the table operations *)

Section ListFacts.

Lemma select_map_filter (p : list cell -> bool) (rs : list (list cell)) :
  select rs (map p rs) = filter p rs.
Proof.
  induction rs as [| r rs IH]; simpl; [reflexivity |].
  rewrite IH. reflexivity.
Qed.

Lemma mem_In (name : string) (l : list string) :
  mem name l = true <-> In name l.
Proof.
  unfold mem. rewrite existsb_exists. split.
  - intros [x [Hin Heq]]. apply String.eqb_eq in Heq. subst. exact Hin.
  - intros Hin. exists name. split; [exact Hin | apply String.eqb_refl].
Qed.

Lemma index_of_Some_mem (name : string) (cols : list string) (i : nat) :
  index_of name cols = Some i -> mem name cols = true.
Proof.
  revert i. induction cols as [| c cs IH]; simpl; intros i H; [discriminate |].
  destruct (String.eqb c name) eqn:E.
  - apply String.eqb_eq in E. subst. rewrite String.eqb_refl. reflexivity.
  - destruct (index_of name cs); [| discriminate].
    rewrite (IH n eq_refl). apply orb_true_r.
Qed.

Lemma mem_index_of (name : string) (cols : list string) :
  mem name cols = true -> exists i, index_of name cols = Some i.
Proof.
  induction cols as [| c cs IH]; simpl; intros H; [discriminate |].
  destruct (String.eqb c name) eqn:E; [exists O; reflexivity |].
  rewrite String.eqb_sym, E in H. simpl in H.
  destruct (IH H) as [i Hi]. exists (S i). rewrite Hi. reflexivity.
Qed.


Lemma getitem_Some (df : DataFrame) (name : string) (i : nat) :
  index_of name (columns df) = Some i ->
  getitem df name = Ok (map (at_col i) (rows df)).
Proof. intros H. unfold getitem. rewrite H. reflexivity. Qed.

Lemma at_col_set_nth_same (i : nat) (v : cell) (r : list cell) :
  at_col i (set_nth i v r) = v.
Proof.
  unfold at_col. revert r. induction i as [| i IH]; intros [| x r]; simpl; auto.
Qed.

Lemma at_col_set_nth_other (i j : nat) (v : cell) (r : list cell) :
  i <> j -> at_col j (set_nth i v r) = at_col j r.
Proof.
  unfold at_col. revert j r.
  induction i as [| i IH]; intros [| j] [| x r] Hij; simpl; try congruence;
    try reflexivity.
  - destruct j; reflexivity.
  - rewrite IH by congruence. destruct j; reflexivity.
  - apply IH. congruence.
Qed.

End ListFacts.

(* ===================================================================== *)
(** ** The store *)

Section StoreFacts.

Lemma nth_error_new {A : Type} (l : list A) (x : A) :
  nth_error (l ++ [x])%list (List.length l) = Some x.
Proof. induction l; simpl; auto. Qed.

Lemma nth_error_old {A : Type} (l extra : list A) (i : nat) (x : A) :
  nth_error l i = Some x -> nth_error (l ++ extra)%list i = Some x.
Proof.
  revert i. induction l as [| y l IH]; intros [| i] H; simpl in *;
    try discriminate; auto.
Qed.

Lemma nth_error_update_same {A : Type} (l : list A) (i : nat) (x y : A) :
  nth_error l i = Some y -> nth_error (update l i x) i = Some x.
Proof.
  revert i. induction l as [| z l IH]; intros [| i] H; simpl in *;
    try discriminate; auto.
Qed.

Lemma nth_error_update_other {A : Type} (l : list A) (i j : nat) (x : A) :
  i <> j -> nth_error (update l i x) j = nth_error l j.
Proof.
  revert i j. induction l as [| z l IH]; intros [| i] [| j] H; simpl;
    try congruence; auto.
Qed.

Lemma update_length {A : Type} (l : list A) (i : nat) (x : A) :
  List.length (update l i x) = List.length l.
Proof.
  revert i. induction l as [| z l IH]; intros [| i]; simpl; auto.
Qed.

Lemma extends_refl (st : Store) : extends st st.
Proof. split; [reflexivity | exists []; symmetry; apply app_nil_r]. Qed.

Lemma extends_trans (a b c : Store) : extends a b -> extends b c -> extends a c.
Proof.
  intros [Hs [e He]] [Hs' [e' He']]. split; [congruence |].
  exists (e ++ e')%list. rewrite He', He, app_assoc. reflexivity.
Qed.

Lemma extends_lookup (st st' : Store) (l : ref) (df : DataFrame) :
  extends st st' ->
  nth_error (frames st) l = Some df -> nth_error (frames st') l = Some df.
Proof.
  intros [_ [e He]] H. rewrite He. apply nth_error_old. exact H.
Qed.

Lemma new_run (df : DataFrame) (st : Store) :
  exists st', new df st = (Ok (List.length (frames st)), st') /\
              extends st st' /\
              nth_error (frames st') (List.length (frames st)) = Some df.
Proof.
  eexists. split; [reflexivity |]. split.
  - split; [reflexivity | exists [df]; reflexivity].
  - simpl. apply nth_error_new.
Qed.

End StoreFacts.

Section FilterOnObjects.

Ltac lookup_frame :=
  repeat first
    [ rewrite nth_error_new
    | erewrite nth_error_old by (first [apply nth_error_new | eassumption]) ].

Ltac close_extends :=
  split; [reflexivity |]; simpl; rewrite <- ?app_assoc; eexists; reflexivity.

Ltac raised := eexists; split; [| reflexivity]; close_extends.

Ltac returned :=
  eexists; split;
  [| eexists; split;
     [ reflexivity
     | simpl; split; [apply nth_error_new | rewrite ?length_app; simpl; lia] ] ];
  close_extends.

(** The filter on objects computes [filter_rows] of the frame it is given,
    in a new object, and writes to no object that existed before. *)
Lemma apply_filters_run (st : Store) (l : ref) (df : DataFrame)
    (sr ss : list cell) (sd : list Timestamp) :
  nth_error (frames st) l = Some df ->
  exists st', extends st st' /\
    match filter_rows df sr ss sd with
    | Ok f =>
        exists l', apply_filters l sr ss sd st = (Ok l', st') /\
                   nth_error (frames st') l' = Some f /\
                   (List.length (frames st) <= l')%nat
    | Raise e => apply_filters l sr ss sd st = (Raise e, st')
    end.
Proof.
  intros H. unfold apply_filters, filter_rows, copy, bindM, read, new, lift, ret.
  rewrite H. simpl.
  repeat match goal with
         | |- context [nonempty ?x] =>
             destruct (nonempty x); simpl; lookup_frame; simpl
         | |- context [getitem ?d ?n] =>
             destruct (getitem d n); simpl; lookup_frame; simpl; [| raised]
         | |- context [tuple_item ?d ?n] =>
             destruct (tuple_item d n); simpl; lookup_frame; simpl; [| raised]
         end;
    returned.
Qed.

End FilterOnObjects.

(* ===================================================================== *)
(** ** The filter engine *)

Section FilterFacts.

Lemma filter_filter {A : Type} (p q : A -> bool) (l : list A) :
  filter q (filter p l) = filter (fun x => p x && q x) l.
Proof.
  induction l as [| x l IH]; simpl; [reflexivity |].
  destruct (p x); simpl; [destruct (q x) |]; rewrite IH; reflexivity.
Qed.

Lemma bool_index_isin (df : DataFrame) (i : nat) (values : list cell) :
  bool_index df (isin (map (at_col i) (rows df)) values) =
  mkDF (columns df)
       (filter (fun r => existsb (cell_eqb (at_col i r)) values) (rows df)).
Proof.
  unfold bool_index, isin. rewrite map_map, select_map_filter. reflexivity.
Qed.

Lemma bool_index_between (df : DataFrame) (k : nat) (a b : Timestamp) :
  bool_index df (between (map (at_col k) (rows df)) a b) =
  mkDF (columns df) (filter (fun r => between_cell a b (at_col k r)) (rows df)).
Proof.
  unfold bool_index, between. rewrite map_map, select_map_filter. reflexivity.
Qed.

(** A membership step, whether the selection is set or not. *)
Lemma member_step (df : DataFrame) (name : string) (i : nat) (sel : list cell) :
  index_of name (columns df) = Some i ->
  (if nonempty sel then
     s <- getitem df name ;; Ok (bool_index df (isin s sel))
   else Ok df) =
  Ok (mkDF (columns df)
        (filter (fun r => spec_member_pass sel (at_col i r)) (rows df))).
Proof.
  intros H. destruct sel as [| v sel]; simpl.
  - destruct df as [cols rs]. simpl. clear H. f_equal. f_equal.
    induction rs as [| r rs IH]; simpl; congruence.
  - rewrite (getitem_Some _ _ _ H). simpl. rewrite bool_index_isin.
    reflexivity.
Qed.

End FilterFacts.

(** C4.  With an empty region selection, an empty specialty selection and
    no date range, the filter returns a frame with exactly the rows of its
    input, in their order: on frame values [filter_rows] is the identity,
    and on objects [apply_filters] yields an object holding the same frame
    while every existing object stays as it was. *)
Theorem filter_pass_through (st : Store) (l : ref) (df : DataFrame) :
  nth_error (frames st) l = Some df ->
  filter_rows df [] [] [] = Ok df /\
  exists l' st',
    apply_filters l [] [] [] st = (Ok l', st') /\
    nth_error (frames st') l' = Some df /\
    extends st st'.
Proof.
  intros H. split; [reflexivity |].
  destruct (apply_filters_run st l df [] [] [] H) as [st' [Hext Hrun]].
  simpl in Hrun. destruct Hrun as [l' [Hrun [Hl' _]]].
  exists l', st'. auto.
Qed.

Lemma filter_pass_through_witness :
  filter_rows sample_df [] [] [] = Ok sample_df /\
  exists l' st',
    apply_filters 0%nat [] [] [] (mkStore [sample_df] (Some 0%nat)) = (Ok l', st') /\
    nth_error (frames st') l' = Some sample_df /\
    extends (mkStore [sample_df] (Some 0%nat)) st'.
Proof.
  apply (filter_pass_through (mkStore [sample_df] (Some 0%nat)) 0%nat sample_df).
  reflexivity.
Defined.

(** C5.  With a bounded date range [(start, stop)] the filter keeps, in
    their order, exactly the rows that pass the region predicate, the
    specialty predicate and the date predicate together; the date
    predicate holds of a cell exactly when the cell is a date [t] with
    [start <= t <= stop], and never of the missing marker. *)
Theorem filter_conjunction (df : DataFrame) (sr ss : list cell)
    (start stop : Timestamp) (i j k : nat) :
  index_of "Region" (columns df) = Some i ->
  index_of "Provider_Specialty" (columns df) = Some j ->
  index_of "claim_date" (columns df) = Some k ->
  filter_rows df sr ss [start; stop] =
    Ok (mkDF (columns df)
          (filter (fun r => spec_member_pass sr (at_col i r)
                            && spec_member_pass ss (at_col j r)
                            && spec_date_pass start stop (at_col k r))
                  (rows df))) /\
  (forall c, spec_date_pass start stop c = true <->
             exists t, c = Ts t /\ ts_leb start t = true /\ ts_leb t stop = true) /\
  spec_date_pass start stop NaT = false.
Proof.
  intros Hi Hj Hk. split; [| split; [| reflexivity]].
  - unfold filter_rows.
    rewrite (member_step df "Region" i sr Hi). simpl.
    set (df1 := mkDF (columns df) _).
    rewrite (member_step df1 "Provider_Specialty" j ss Hj). simpl.
    set (df2 := mkDF (columns df) _).
    rewrite (getitem_Some df2 "claim_date" k Hk). simpl.
    rewrite bool_index_between. simpl. rewrite !filter_filter.
    f_equal. f_equal. apply filter_ext. intros r.
    rewrite andb_assoc. f_equal.
  - intros c. destruct c; simpl; split;
      try (intros [t [Hc _]]; discriminate); try discriminate.
    + intros H. apply andb_true_iff in H. exists t. tauto.
    + intros [t' [Hc [H1 H2]]]. injection Hc as <-. rewrite H1, H2. reflexivity.
Qed.

Lemma filter_conjunction_witness :
  filter_rows sample_df [Str "South"] [] [mkTs 2025 1 1; mkTs 2025 2 15] =
    Ok (mkDF (columns sample_df)
          (filter (fun r => spec_member_pass [Str "South"] (at_col 5 r)
                            && spec_member_pass [] (at_col 6 r)
                            && spec_date_pass (mkTs 2025 1 1) (mkTs 2025 2 15) (at_col 2 r))
                  (rows sample_df))) /\
  (forall c, spec_date_pass (mkTs 2025 1 1) (mkTs 2025 2 15) c = true <->
             exists t, c = Ts t /\ ts_leb (mkTs 2025 1 1) t = true
                       /\ ts_leb t (mkTs 2025 2 15) = true) /\
  spec_date_pass (mkTs 2025 1 1) (mkTs 2025 2 15) NaT = false.
Proof.
  apply (filter_conjunction sample_df [Str "South"] [] (mkTs 2025 1 1)
           (mkTs 2025 2 15) 5 6 2); reflexivity.
Defined.

(* ===================================================================== *)
(** ** Totals *)

Section TotalsFacts.

Lemma sum_numeric (s : Series) :
  numeric s = true -> sum s = Ok (zsum (present_values s)).
Proof.
  induction s as [| c s IH]; simpl; intros H; [reflexivity |].
  apply andb_true_iff in H. destruct H as [Hc Hs].
  destruct c; try discriminate; rewrite (IH Hs); reflexivity.
Qed.

Lemma zsum_app (a b : list Z) : zsum (a ++ b) = zsum a + zsum b.
Proof. induction a as [| x a IH]; simpl; [reflexivity | rewrite IH; lia]. Qed.

Lemma present_values_zero (s : Series) :
  zsum (present_values s) = zsum (map amount_or_zero s).
Proof.
  induction s as [| c s IH]; simpl; [reflexivity |].
  rewrite zsum_app, IH. destruct c; simpl; lia.
Qed.

(** With amounts that are added exactly, the total of any selection of
    rows is below 2^53 in absolute value. *)
Lemma exact_subtotal (rs : list (list cell)) (v : nat) (p : list cell -> bool) :
  exact_amounts (map (at_col v) rs) = true ->
  Z.abs (zsum (map (fun r => amount_or_zero (at_col v r)) (filter p rs))) < 2 ^ 53.
Proof.
  unfold exact_amounts. rewrite Z.ltb_lt.
  assert (H : Z.abs (zsum (map (fun r => amount_or_zero (at_col v r)) (filter p rs)))
              <= zsum (map Z.abs (present_values (map (at_col v) rs))) /\
              0 <= zsum (map Z.abs (present_values (map (at_col v) rs)))).
  { induction rs as [| r rs [IH1 IH2]]; [simpl; lia |].
    cbn [map present_values flat_map].
    fold (present_values (map (at_col v) rs)).
    rewrite map_app, zsum_app.
    assert (Hr : zsum (map Z.abs match at_col v r with
                                 | Num z => [z]
                                 | _ => []
                                 end) = Z.abs (amount_or_zero (at_col v r))).
    { destruct (at_col v r); simpl; lia. }
    rewrite Hr. cbn [filter].
    destruct (p r); cbn [map zsum fold_right];
      fold (zsum (map (fun r0 => amount_or_zero (at_col v r0)) (filter p rs)));
      lia. }
  lia.
Qed.

Lemma has_schema_index (df : DataFrame) (col : string) :
  has_schema df = true -> In col EXPECTED_COLUMNS ->
  exists i, index_of col (columns df) = Some i.
Proof.
  unfold has_schema. rewrite forallb_forall. intros H Hin.
  apply mem_index_of. apply H. exact Hin.
Qed.

End TotalsFacts.

(** C8.  On a filtered frame with the required columns and no rows, the
    totals are returned, not raised, and are count 0 and sums 0, 0, 0; the
    same through the object, whose store is left as it was. *)
Theorem totals_empty (df : DataFrame) :
  has_schema df = true ->
  rows df = [] ->
  totals df = Ok (mkTotals 0 0 0 0) /\
  forall st l, nth_error (frames st) l = Some df ->
               kpis l st = (Ok (mkTotals 0 0 0 0), st).
Proof.
  intros Hs Hr.
  assert (Ht : totals df = Ok (mkTotals 0 0 0 0)).
  { unfold totals.
    destruct (has_schema_index df "Claimed_Amount" Hs) as [i Hi];
      [simpl; tauto |].
    destruct (has_schema_index df "Approved_Amount" Hs) as [j Hj];
      [simpl; tauto |].
    destruct (has_schema_index df "Denied_amount" Hs) as [k Hk];
      [simpl; tauto |].
    rewrite (getitem_Some _ _ _ Hi), (getitem_Some _ _ _ Hj),
      (getitem_Some _ _ _ Hk), Hr.
    reflexivity. }
  split; [exact Ht |].
  intros st l Hl. unfold kpis, bindM, read, lift. rewrite Hl, Ht. reflexivity.
Qed.

Lemma totals_empty_witness :
  totals (mkDF EXPECTED_COLUMNS []) = Ok (mkTotals 0 0 0 0) /\
  forall st l, nth_error (frames st) l = Some (mkDF EXPECTED_COLUMNS []) ->
               kpis l st = (Ok (mkTotals 0 0 0 0), st).
Proof.
  apply (totals_empty (mkDF EXPECTED_COLUMNS [])); reflexivity.
Defined.

(** C10.  On a frame whose three amount columns are numeric, the count is
    the number of rows, rows with a missing amount included, and each sum
    is the sum of the amounts that are present in its column, which is
    also the sum with every missing amount read as 0. *)
Theorem totals_skip_missing (df : DataFrame) (i j k : nat) :
  index_of "Claimed_Amount" (columns df) = Some i ->
  index_of "Approved_Amount" (columns df) = Some j ->
  index_of "Denied_amount" (columns df) = Some k ->
  numeric (map (at_col i) (rows df)) = true ->
  numeric (map (at_col j) (rows df)) = true ->
  numeric (map (at_col k) (rows df)) = true ->
  totals df =
    Ok (mkTotals (Z.of_nat (List.length (rows df)))
          (zsum (present_values (map (at_col i) (rows df))))
          (zsum (present_values (map (at_col j) (rows df))))
          (zsum (present_values (map (at_col k) (rows df))))) /\
  (forall s, zsum (present_values s) = zsum (map amount_or_zero s)).
Proof.
  intros Hi Hj Hk Ni Nj Nk. split; [| apply present_values_zero].
  unfold totals.
  rewrite (getitem_Some _ _ _ Hi), (getitem_Some _ _ _ Hj),
    (getitem_Some _ _ _ Hk).
  simpl. rewrite (sum_numeric _ Ni), (sum_numeric _ Nj), (sum_numeric _ Nk).
  reflexivity.
Qed.

Lemma totals_skip_missing_witness :
  totals partial_amounts_df = Ok (mkTotals 2 1000 700 300) /\
  (forall s, zsum (present_values s) = zsum (map amount_or_zero s)).
Proof.
  apply (totals_skip_missing partial_amounts_df 9 10 11); reflexivity.
Defined.

(* ===================================================================== *)
(** ** Loading: schema check and date normalisation *)

Section LoadFacts.

Variable convert : cell -> option Timestamp.

Lemma missing_columns_spec (df : DataFrame) (c : string) :
  In c (missing_columns df) <->
  In c EXPECTED_COLUMNS /\ ~ In c (columns df).
Proof.
  unfold missing_columns. rewrite filter_In, negb_true_iff.
  rewrite <- (mem_In c (columns df)), not_true_iff_false. reflexivity.
Qed.

Lemma missing_columns_nil (df : DataFrame) :
  missing_columns df = [] <-> has_schema df = true.
Proof.
  unfold missing_columns, has_schema. rewrite forallb_forall. split.
  - intros H c Hc. destruct (mem c (columns df)) eqn:E; [reflexivity |].
    assert (Hin : In c (filter (fun col => negb (mem col (columns df)))
                          EXPECTED_COLUMNS)).
    { apply filter_In. split; [exact Hc | rewrite E; reflexivity]. }
    rewrite H in Hin. destruct Hin.
  - intros H.
    induction EXPECTED_COLUMNS as [| c cs IH]; simpl; [reflexivity |].
    rewrite (H c (or_introl eq_refl)). simpl.
    apply IH. intros x Hx. apply H. right. exact Hx.
Qed.

Lemma setitem_existing (df : DataFrame) (name : string) (k : nat)
    (f : cell -> cell) :
  index_of name (columns df) = Some k ->
  setitem df name (map f (map (at_col k) (rows df))) =
  mkDF (columns df) (map (fun r => set_nth k (f (at_col k r)) r) (rows df)).
Proof.
  intros H. unfold setitem. rewrite H. f_equal.
  induction (rows df) as [| r rs IH]; simpl; [reflexivity |].
  rewrite IH. reflexivity.
Qed.

Lemma check_and_normalize_ok (df : DataFrame) :
  has_schema df = true ->
  exists k, index_of "claim_date" (columns df) = Some k /\
            check_and_normalize convert df = Ok (normalized convert k df).
Proof.
  intros Hs.
  destruct (has_schema_index df "claim_date" Hs) as [k Hk]; [simpl; tauto |].
  exists k. split; [exact Hk |].
  unfold check_and_normalize. fold (missing_columns df).
  rewrite (proj2 (missing_columns_nil df) Hs).
  rewrite (index_of_Some_mem _ _ _ Hk), (getitem_Some _ _ _ Hk). simpl.
  unfold to_datetime. rewrite (setitem_existing df "claim_date" k _ Hk).
  reflexivity.
Qed.

Lemma check_and_normalize_raise (df : DataFrame) :
  missing_columns df <> [] ->
  check_and_normalize convert df =
  Raise (ValueError ("The uploaded file is missing these columns: "
                     ++ join ", " (missing_columns df))).
Proof.
  intros H. unfold check_and_normalize. fold (missing_columns df).
  destruct (missing_columns df); [congruence | reflexivity].
Qed.

Lemma normalized_row (k : nat) (df : DataFrame) (n : nat) (r : list cell) :
  nth_error (rows df) n = Some r ->
  nth_error (rows (normalized convert k df)) n =
  Some (set_nth k (to_datetime_cell convert (at_col k r)) r).
Proof.
  intros H. simpl. rewrite nth_error_map, H. reflexivity.
Qed.

End LoadFacts.

Section ReadCsvFacts.

Lemma convert_field_csv_cell (numeric_col : bool) (f : string) :
  csv_cell (convert_field numeric_col f).
Proof.
  unfold convert_field. destruct (is_na_field f) eqn:E; simpl; [exact I |].
  destruct numeric_col; simpl; [| exact E].
  destruct (parse_int f); simpl; [exact I | exact E].
Qed.

Lemma read_csv_shape (file : CsvFile) (df : DataFrame) :
  read_csv file = Ok df ->
  exists header records,
    file = header :: records /\
    df = mkDF header
           (map (fun r =>
                   map (fun j =>
                          convert_field
                            (numeric_column (column_fields j records))
                            (field_at j r))
                       (seq 0 (List.length header)))
                records).
Proof.
  destruct file as [| header records]; simpl; [discriminate |].
  destruct (existsb _ records); [discriminate |].
  intros H. injection H as <-. exists header, records. auto.
Qed.

Lemma read_csv_cells (file : CsvFile) (df : DataFrame) (r : list cell) (j : nat) :
  read_csv file = Ok df -> In r (rows df) -> csv_cell (at_col j r).
Proof.
  intros H Hr. destruct (read_csv_shape file df H) as [header [records [_ ->]]].
  simpl in Hr. apply in_map_iff in Hr. destruct Hr as [rec [<- _]].
  unfold at_col.
  destruct (nth_in_or_default j
              (map (fun j0 => convert_field
                                (numeric_column (column_fields j0 records))
                                (field_at j0 rec))
                   (seq 0 (List.length header))) NaN) as [Hin | ->];
    [| exact I].
  apply in_map_iff in Hin. destruct Hin as [j0 [<- _]].
  apply convert_field_csv_cell.
Qed.

End ReadCsvFacts.

(** C1.  For a parsed upload [df]: the columns [load_data] reports are
    exactly the required columns absent from the table; when there is at
    least one, [load_data] raises the error whose message lists them, and
    the home page neither stores a dataset nor reaches the filter (the
    session is left as it was and the run stops on the unbound name
    [df]); when there is none, [load_data] returns the table with the same
    columns and the same rows, every cell outside [claim_date] as it
    was. *)
Theorem load_schema_rejection (convert : cell -> option Timestamp)
    (file : CsvFile) (df : DataFrame) :
  read_csv file = Ok df ->
  (forall c, In c (missing_columns df) <->
             In c EXPECTED_COLUMNS /\ ~ In c (columns df)) /\
  (missing_columns df <> [] ->
   load_data convert file =
     Raise (ValueError ("The uploaded file is missing these columns: "
                        ++ join ", " (missing_columns df))) /\
   forall st sr ss sd,
     home_page convert (Some file) sr ss sd st = (Raise (NameError "df"), st)) /\
  (missing_columns df = [] ->
   exists k df',
     index_of "claim_date" (columns df) = Some k /\
     load_data convert file = Ok df' /\
     columns df' = columns df /\
     List.length (rows df') = List.length (rows df) /\
     forall n r, nth_error (rows df) n = Some r ->
       exists r', nth_error (rows df') n = Some r' /\
                  forall j, j <> k -> at_col j r' = at_col j r).
Proof.
  intros Hread. split; [apply missing_columns_spec |]. split.
  - intros Hm.
    assert (Hl : load_data convert file =
                 Raise (ValueError ("The uploaded file is missing these columns: "
                                    ++ join ", " (missing_columns df)))).
    { unfold load_data. rewrite Hread. simpl.
      apply check_and_normalize_raise. exact Hm. }
    split; [exact Hl |].
    intros st sr ss sd. unfold home_page, bindM, try_except, lift.
    rewrite Hl. reflexivity.
  - intros Hm. apply missing_columns_nil in Hm.
    destruct (check_and_normalize_ok convert df Hm) as [k [Hk Hc]].
    exists k, (normalized convert k df).
    split; [exact Hk |]. split.
    { unfold load_data. rewrite Hread. exact Hc. }
    split; [reflexivity |]. split; [simpl; apply length_map |].
    intros n r Hn. eexists. split; [apply normalized_row; exact Hn |].
    intros j Hj. apply at_col_set_nth_other. congruence.
Qed.

Lemma load_schema_rejection_witness :
  missing_columns two_missing_df = ["Region"; "Denial_reason"] /\
  load_data iso_convert two_missing_file =
    Raise (ValueError
             "The uploaded file is missing these columns: Region, Denial_reason") /\
  forall st sr ss sd,
    home_page iso_convert (Some two_missing_file) sr ss sd st =
    (Raise (NameError "df"), st).
Proof.
  split; [reflexivity |].
  apply (load_schema_rejection iso_convert two_missing_file two_missing_df);
    [reflexivity | discriminate].
Defined.

(** C9.  For a parsed upload with the required columns, [load_data]
    returns a table, with as many rows; in each row the [claim_date] cell
    of an empty field is the missing-date marker [NaT], that of a present
    value that does not convert is [NaT], that of a present value that
    converts to [t] is the date [t]; and every [claim_date] cell of the
    result is [NaT] or a date. *)
Theorem date_normalization (convert : cell -> option Timestamp)
    (file : CsvFile) (df : DataFrame) :
  read_csv file = Ok df ->
  has_schema df = true ->
  exists k df',
    index_of "claim_date" (columns df) = Some k /\
    load_data convert file = Ok df' /\
    index_of "claim_date" (columns df') = Some k /\
    List.length (rows df') = List.length (rows df) /\
    (forall n r, nth_error (rows df) n = Some r ->
       exists r', nth_error (rows df') n = Some r' /\
         (at_col k r = NaN -> at_col k r' = NaT) /\
         (at_col k r <> NaN -> convert (at_col k r) = None -> at_col k r' = NaT) /\
         (forall t, at_col k r <> NaN -> convert (at_col k r) = Some t ->
                    at_col k r' = Ts t)) /\
    (forall r', In r' (rows df') ->
       at_col k r' = NaT \/ exists t, at_col k r' = Ts t).
Proof.
  intros Hread Hs.
  destruct (check_and_normalize_ok convert df Hs) as [k [Hk Hc]].
  exists k, (normalized convert k df).
  split; [exact Hk |]. split.
  { unfold load_data. rewrite Hread. exact Hc. }
  split; [exact Hk |]. split; [simpl; apply length_map |]. split.
  - intros n r Hn. eexists. split; [apply normalized_row; exact Hn |].
    rewrite at_col_set_nth_same.
    assert (Hcell : csv_cell (at_col k r)).
    { apply (read_csv_cells file df r k Hread).
      apply nth_error_In with n. exact Hn. }
    destruct (at_col k r) eqn:E; simpl in *; try contradiction.
    + repeat split; congruence.
    + repeat split; try congruence.
      * intros _ Hn0. rewrite Hn0. reflexivity.
      * intros t _ Hn0. rewrite Hn0. reflexivity.
    + repeat split; try congruence.
      * intros _ Hn0. rewrite Hn0. reflexivity.
      * intros t _ Hn0. rewrite Hn0. reflexivity.
  - intros r' Hin. simpl in Hin. apply in_map_iff in Hin.
    destruct Hin as [r [<- _]]. rewrite at_col_set_nth_same.
    unfold to_datetime_cell.
    destruct (at_col k r); try (left; reflexivity);
      try (right; eexists; reflexivity);
      destruct (convert _); try (left; reflexivity);
      right; eexists; reflexivity.
Qed.

Lemma date_normalization_witness :
  exists k df',
    index_of "claim_date" (columns mixed_dates_df) = Some k /\
    load_data iso_convert mixed_dates_file = Ok df' /\
    index_of "claim_date" (columns df') = Some k /\
    List.length (rows df') = List.length (rows mixed_dates_df) /\
    (forall n r, nth_error (rows mixed_dates_df) n = Some r ->
       exists r', nth_error (rows df') n = Some r' /\
         (at_col k r = NaN -> at_col k r' = NaT) /\
         (at_col k r <> NaN -> iso_convert (at_col k r) = None ->
          at_col k r' = NaT) /\
         (forall t, at_col k r <> NaN -> iso_convert (at_col k r) = Some t ->
                    at_col k r' = Ts t)) /\
    (forall r', In r' (rows df') ->
       at_col k r' = NaT \/ exists t, at_col k r' = Ts t).
Proof.
  apply (date_normalization iso_convert mixed_dates_file mixed_dates_df);
    reflexivity.
Defined.

Example mixed_dates_loaded :
  option_map (map (at_col 2))
    (match load_data iso_convert mixed_dates_file with
     | Ok df => Some (rows df)
     | Raise _ => None
     end) = Some [Ts (mkTs 2025 1 1); NaT; NaT].
Proof. reflexivity. Qed.

(* ===================================================================== *)
(** ** Effects of the aggregates on the frame objects *)

Section EffectFacts.

Lemma fill_unknown_eq (df : DataFrame) (k : nat) :
  index_of "Denial_reason" (columns df) = Some k ->
  fill_unknown df = Ok (unknown_filled k df).
Proof.
  intros H. unfold fill_unknown. rewrite (getitem_Some _ _ _ H). simpl.
  unfold fillna.
  rewrite (setitem_existing df "Denial_reason" k
             (fun c => if isna c then Str "Unknown" else c) H).
  reflexivity.
Qed.

Lemma read_only_run {A : Type} (f : DataFrame -> result A) (l : ref) (st : Store) :
  snd ((x <~ read l ;; lift (f x)) st) = st.
Proof.
  unfold bindM, read, lift. destruct (nth_error (frames st) l); reflexivity.
Qed.

Lemma denial_summary_store (st : Store) (l : ref) (df : DataFrame) :
  nth_error (frames st) l = Some df ->
  snd (denial_summary l st) =
  match fill_unknown df with
  | Ok filled => mkStore (update (frames st) l filled) (session_data st)
  | Raise _ => st
  end.
Proof.
  intros H. unfold denial_summary, bindM, read, lift, write. rewrite H.
  destruct (fill_unknown df) as [filled | e]; simpl; [| reflexivity].
  rewrite (nth_error_update_same _ _ filled df H). reflexivity.
Qed.

Lemma denial_summary_others (st : Store) (l c : ref) :
  c <> l ->
  nth_error (frames (snd (denial_summary l st))) c = nth_error (frames st) c /\
  session_data (snd (denial_summary l st)) = session_data st.
Proof.
  intros Hc. destruct (nth_error (frames st) l) as [df |] eqn:E.
  - rewrite (denial_summary_store st l df E).
    destruct (fill_unknown df); simpl; [| auto].
    split; [apply nth_error_update_other; congruence | reflexivity].
  - unfold denial_summary, bindM, read. rewrite E. simpl. auto.
Qed.

Lemma download_button_store (st : Store) (l : ref) :
  snd (download_button l st) = st.
Proof.
  unfold download_button, bindM, read, ret.
  destruct (nth_error (frames st) l); reflexivity.
Qed.

(** The page of the top denial reasons writes to no object that existed
    before the run: its only write goes to the filtered frame, which the
    run itself creates. *)
Lemma top_denial_page_keeps (st : Store) (sr ss : list cell)
    (sd : list Timestamp) (c : ref) (canon : DataFrame) :
  session_data st = Some c ->
  nth_error (frames st) c = Some canon ->
  nth_error (frames (snd (top_denial_page sr ss sd st))) c = Some canon /\
  session_data (snd (top_denial_page sr ss sd st)) = Some c.
Proof.
  intros Hs Hc.
  cut (exists st', snd (top_denial_page sr ss sd st) = st' /\
                   nth_error (frames st') c = Some canon /\
                   session_data st' = Some c).
  { intros [st' [-> H]]. exact H. }
  unfold top_denial_page, bindM, get_session_data, ret.
  rewrite Hs.
  destruct (apply_filters_run st c canon sr ss sd Hc) as [st1 [Hext Hrun]].
  assert (Hc1 : nth_error (frames st1) c = Some canon)
    by (apply (extends_lookup st st1); assumption).
  assert (Hs1 : session_data st1 = Some c)
    by (destruct Hext as [E _]; congruence).
  destruct (filter_rows canon sr ss sd) as [f | e].
  - destruct Hrun as [l' [Hrun [Hl' Hge]]]. rewrite Hrun.
    assert (Hne : c <> l').
    { assert (c < List.length (frames st))%nat
        by (apply nth_error_Some; congruence). lia. }
    destruct (denial_summary_others st1 l' c Hne) as [Hf Hsd].
    destruct (denial_summary l' st1) as [[summary | e] st2] eqn:Ed;
      simpl in Hf, Hsd.
    + pose proof (download_button_store st2 l') as Hd.
      destruct (download_button l' st2) as [[csv | e] st3]; simpl in Hd;
        subst st3; simpl; eexists; (split; [reflexivity |]); split; congruence.
    + simpl. eexists. split; [reflexivity |]. split; congruence.
  - rewrite Hrun. simpl. eexists. split; [reflexivity |]. auto.
Qed.

End EffectFacts.

(** C6, on the code.  On the filtered frame object: the totals, the
    status breakdown, the denied amount by region and the monthly trend
    leave the whole store as it was; the top denial reasons write one
    object, the filtered frame, in which every missing [Denial_reason]
    becomes [Unknown] while the columns, the number and order of rows and
    every other cell stay as they were; every other object is untouched,
    and across a run of the top-denial page so is the canonical dataset
    of the session. *)
Theorem aggregates_effect (st : Store) (l : ref) (df : DataFrame) (k : nat) :
  nth_error (frames st) l = Some df ->
  index_of "Denial_reason" (columns df) = Some k ->
  snd (kpis l st) = st /\
  snd (status_chart l st) = st /\
  snd (denied_by_region l st) = st /\
  snd (trend l st) = st /\
  snd (denial_summary l st) =
    mkStore (update (frames st) l (unknown_filled k df)) (session_data st) /\
  columns (unknown_filled k df) = columns df /\
  List.length (rows (unknown_filled k df)) = List.length (rows df) /\
  (forall n r, nth_error (rows df) n = Some r ->
     exists r', nth_error (rows (unknown_filled k df)) n = Some r' /\
       (forall j, j <> k -> at_col j r' = at_col j r) /\
       at_col k r' = (if isna (at_col k r) then Str "Unknown" else at_col k r)) /\
  (forall c, c <> l ->
     nth_error (frames (snd (denial_summary l st))) c = nth_error (frames st) c) /\
  (forall sr ss sd c canon,
     session_data st = Some c -> nth_error (frames st) c = Some canon ->
     nth_error (frames (snd (top_denial_page sr ss sd st))) c = Some canon).
Proof.
  intros Hl Hk.
  repeat split; try apply read_only_run.
  - rewrite (denial_summary_store st l df Hl), (fill_unknown_eq df k Hk).
    reflexivity.
  - simpl. apply length_map.
  - intros n r Hn. eexists. split; [| split].
    + simpl. rewrite nth_error_map, Hn. reflexivity.
    + intros j Hj. apply at_col_set_nth_other. congruence.
    + apply at_col_set_nth_same.
  - intros c Hc. apply denial_summary_others. exact Hc.
  - intros sr ss sd c canon Hs Hc.
    apply (top_denial_page_keeps st sr ss sd c canon Hs Hc).
Qed.

Lemma aggregates_effect_witness :
  snd (kpis 0%nat (mkStore [sample_df] (Some 0%nat))) = mkStore [sample_df] (Some 0%nat) /\
  snd (denial_summary 0%nat (mkStore [sample_df] (Some 0%nat))) =
    mkStore [unknown_filled 12 sample_df] (Some 0%nat).
Proof.
  pose proof (aggregates_effect (mkStore [sample_df] (Some 0%nat)) 0%nat
                sample_df 12 eq_refl eq_refl) as H.
  split; [apply H |]. apply (proj1 (proj2 (proj2 (proj2 (proj2 H))))).
Defined.

(** C6 as stated fails: computing the top denial reasons on an object
    holding the sample frame changes that object; its first row has a
    missing [Denial_reason] before and the text [Unknown] after. *)
Lemma denial_summary_mutates :
  let st := mkStore [sample_df] (Some 0%nat) in
  let st' := snd (denial_summary 0%nat st) in
  st' <> st /\
  option_map (fun f => map (at_col 12) (rows f)) (nth_error (frames st) 0) =
    Some [NaN; Str "Missing info"] /\
  option_map (fun f => map (at_col 12) (rows f)) (nth_error (frames st') 0) =
    Some [Str "Unknown"; Str "Missing info"].
Proof.
  split; [| split; reflexivity].
  intros H. vm_compute in H. discriminate H.
Qed.

(* ===================================================================== *)
(** ** Sorting, distinct values and grouping *)

Section SortFacts.

Context {A : Type} (leb : A -> A -> bool).

Lemma insert_perm (x : A) (l : list A) : Permutation (insert leb x l) (x :: l).
Proof.
  induction l as [| y l IH]; simpl; [reflexivity |].
  destruct (leb x y); [reflexivity |].
  rewrite IH. apply perm_swap.
Qed.

Lemma isort_perm (l : list A) : Permutation (isort leb l) l.
Proof.
  induction l as [| x l IH]; simpl; [reflexivity |].
  rewrite insert_perm. apply perm_skip. exact IH.
Qed.

Hypothesis leb_total : forall a b, leb a b = true \/ leb b a = true.
Hypothesis leb_trans : forall a b c, leb a b = true -> leb b c = true -> leb a c = true.

Lemma insert_sorted (x : A) (l : list A) :
  StronglySorted (fun a b => leb a b = true) l ->
  StronglySorted (fun a b => leb a b = true) (insert leb x l).
Proof.
  induction l as [| y l IH]; simpl; intros Hs.
  - constructor; [constructor | constructor].
  - inversion Hs as [| ? ? Hs' Hall]; subst.
    destruct (leb x y) eqn:E.
    + constructor; [exact Hs |]. constructor; [exact E |].
      eapply Forall_impl; [| exact Hall]. intros z Hz. simpl in Hz.
      eapply leb_trans; eassumption.
    + constructor; [apply IH; exact Hs' |].
      assert (Hyx : leb y x = true)
        by (destruct (leb_total x y); congruence).
      rewrite Forall_forall. intros z Hz.
      apply (Permutation_in _ (insert_perm x l)) in Hz.
      destruct Hz as [<- | Hz]; [exact Hyx |].
      rewrite Forall_forall in Hall. apply Hall. exact Hz.
Qed.

Lemma isort_sorted (l : list A) :
  StronglySorted (fun a b => leb a b = true) (isort leb l).
Proof.
  induction l as [| x l IH]; simpl; [constructor |].
  apply insert_sorted. exact IH.
Qed.

End SortFacts.

Section SortedPrefix.

Lemma In_firstn {A : Type} (n : nat) (l : list A) (y : A) :
  In y (firstn n l) -> In y l.
Proof.
  revert l. induction n as [| n IH]; intros [| x l]; simpl; try tauto.
  intros [-> | H]; [left; reflexivity | right; apply IH; exact H].
Qed.

Lemma StronglySorted_firstn {A : Type} (R : A -> A -> Prop) (n : nat) (l : list A) :
  StronglySorted R l -> StronglySorted R (firstn n l).
Proof.
  revert l. induction n as [| n IH]; intros l Hs; simpl; [constructor |].
  destruct l as [| x l]; [constructor |].
  inversion Hs as [| ? ? Hs' Hall]; subst.
  constructor; [apply IH; exact Hs' |].
  rewrite Forall_forall in *. intros y Hy. apply Hall.
  apply (In_firstn n). exact Hy.
Qed.

End SortedPrefix.

Section GroupFacts.

Lemma ts_eqb_eq (a b : Timestamp) : ts_eqb a b = true <-> a = b.
Proof.
  unfold ts_eqb. rewrite !andb_true_iff, !Z.eqb_eq.
  destruct a, b; simpl. split.
  - intros [[-> ->] ->]. reflexivity.
  - intros H. injection H as -> -> ->. auto.
Qed.

Lemma cell_eqb_eq (a b : cell) : cell_eqb a b = true <-> a = b.
Proof.
  destruct a, b; simpl; try (split; [discriminate | discriminate]);
    try (split; reflexivity).
  - rewrite String.eqb_eq. split; congruence.
  - rewrite Z.eqb_eq. split; congruence.
  - rewrite ts_eqb_eq. split; congruence.
Qed.

Lemma cell_eqb_refl (a : cell) : cell_eqb a a = true.
Proof. apply cell_eqb_eq. reflexivity. Qed.

Lemma cell_eqb_neq (a b : cell) : cell_eqb a b = false <-> a <> b.
Proof.
  rewrite <- cell_eqb_eq. destruct (cell_eqb a b); split; congruence.
Qed.

Lemma unique_In (s : Series) (x : cell) : In x (unique s) <-> In x s.
Proof.
  induction s as [| c s IH]; simpl; [reflexivity |].
  rewrite filter_In, IH, negb_true_iff, cell_eqb_neq.
  destruct (cell_eqb x c) eqn:E.
  - apply cell_eqb_eq in E. subst. tauto.
  - apply cell_eqb_neq in E. split.
    + intros [H | [H _]]; auto.
    + intros [H | H]; [congruence | auto].
Qed.

Lemma unique_NoDup (s : Series) : NoDup (unique s).
Proof.
  induction s as [| c s IH]; simpl; constructor.
  - rewrite filter_In, negb_true_iff, cell_eqb_neq. tauto.
  - apply NoDup_filter. exact IH.
Qed.

Lemma mapM_ok {X Y : Type} (f : X -> result Y) (g : X -> Y) (l : list X) :
  (forall x, In x l -> f x = Ok (g x)) -> mapM f l = Ok (map g l).
Proof.
  induction l as [| x l IH]; simpl; intros H; [reflexivity |].
  rewrite (H x (or_introl eq_refl)). simpl.
  rewrite IH by (intros y Hy; apply H; right; exact Hy). reflexivity.
Qed.

Lemma group_values_rows (f h : list cell -> cell) (rs : list (list cell)) (g : cell) :
  group_values (map f rs) (map h rs) g =
  map h (filter (fun r => cell_eqb (f r) g) rs).
Proof.
  unfold group_values. induction rs as [| r rs IH]; simpl; [reflexivity |].
  destruct (cell_eqb (f r) g); simpl; rewrite IH; reflexivity.
Qed.

Lemma numeric_filter (h : list cell -> cell) (p : list cell -> bool)
    (rs : list (list cell)) :
  numeric (map h rs) = true -> numeric (map h (filter p rs)) = true.
Proof.
  unfold numeric. rewrite !forallb_forall. intros H c Hc.
  apply H. apply in_map_iff in Hc. destruct Hc as [r [<- Hr]].
  apply in_map. apply filter_In in Hr. tauto.
Qed.

Lemma filter_all {X : Type} (p : X -> bool) (l : list X) :
  (forall x, In x l -> p x = true) -> filter p l = l.
Proof.
  induction l as [| x l IH]; simpl; intros H; [reflexivity |].
  rewrite (H x (or_introl eq_refl)).
  rewrite IH by (intros y Hy; apply H; right; exact Hy). reflexivity.
Qed.

Lemma index_of_nth (name : string) (cols : list string) (i : nat) :
  index_of name cols = Some i -> nth_error cols i = Some name.
Proof.
  revert i. induction cols as [| c cs IH]; simpl; intros i H; [discriminate |].
  destruct (String.eqb c name) eqn:E.
  - injection H as <-. apply String.eqb_eq in E. subst. reflexivity.
  - destruct (index_of name cs) as [n |]; [| discriminate].
    injection H as <-. simpl. apply IH. reflexivity.
Qed.

Lemma index_of_distinct (a b : string) (cols : list string) (i j : nat) :
  a <> b -> index_of a cols = Some i -> index_of b cols = Some j -> i <> j.
Proof.
  intros Hab Hi Hj ->. apply index_of_nth in Hi, Hj. congruence.
Qed.

End GroupFacts.

(* ===================================================================== *)
(** ** Top denial reasons *)

Section TopReasonsFacts.

Lemma StronglySorted_impl {X : Type} (R S : X -> X -> Prop) (l : list X) :
  (forall a b, R a b -> S a b) -> StronglySorted R l -> StronglySorted S l.
Proof.
  intros H Hs. induction Hs as [| x l Hs IH Hall]; constructor; [exact IH |].
  eapply Forall_impl; [| exact Hall]. intros y. apply H.
Qed.

Lemma NoDup_firstn {X : Type} (n : nat) (l : list X) :
  NoDup l -> NoDup (firstn n l).
Proof.
  revert l. induction n as [| n IH]; intros l Hn; simpl; [constructor |].
  destruct l as [| x l]; [constructor |].
  inversion Hn as [| ? ? Hx Hl]; subst. constructor; [| apply IH; exact Hl].
  intros Hin. apply Hx. apply (In_firstn n). exact Hin.
Qed.

Lemma sort_values_desc_sorted {K : Type} (l : list (K * Z)) :
  StronglySorted (fun a b => snd b <= snd a) (sort_values_desc l).
Proof.
  unfold sort_values_desc.
  apply (StronglySorted_impl (fun a b => (snd b <=? snd a) = true)).
  - intros a b H. apply Z.leb_le. exact H.
  - apply isort_sorted.
    + intros a b. rewrite !Z.leb_le. lia.
    + intros a b c. rewrite !Z.leb_le. lia.
Qed.

Lemma filled_reason_column (df : DataFrame) (k : nat) :
  map (at_col k) (rows (unknown_filled k df)) = reasons df k.
Proof.
  unfold reasons. simpl. rewrite map_map. apply map_ext. intros r.
  apply at_col_set_nth_same.
Qed.

Lemma filled_other_column (df : DataFrame) (k v : nat) :
  k <> v ->
  map (at_col v) (rows (unknown_filled k df)) = map (at_col v) (rows df).
Proof.
  intros H. simpl. rewrite map_map. apply map_ext. intros r.
  apply at_col_set_nth_other. exact H.
Qed.

Lemma spec_reason_present (c : cell) : isna (spec_reason c) = false.
Proof. destruct c; reflexivity. Qed.

Lemma groupby_reason (df : DataFrame) (k v : nat) :
  index_of "Denial_reason" (columns df) = Some k ->
  index_of "Denied_amount" (columns df) = Some v ->
  numeric (map (at_col v) (rows df)) = true ->
  groupby_sum (unknown_filled k df) "Denial_reason" "Denied_amount" =
  Ok (reason_groups df k v).
Proof.
  intros Hk Hv Hnum.
  assert (Hkv : k <> v).
  { apply (index_of_distinct "Denial_reason" "Denied_amount" (columns df));
      [discriminate | assumption | assumption]. }
  unfold groupby_sum.
  rewrite (getitem_Some (unknown_filled k df) _ _ Hk).
  rewrite (getitem_Some (unknown_filled k df) _ _ Hv). cbn [bind].
  rewrite filled_reason_column, (filled_other_column df k v Hkv).
  assert (Hd : dropna (reasons df k) = reasons df k).
  { unfold dropna. apply filter_all. intros c Hc.
    unfold reasons in Hc. apply in_map_iff in Hc. destruct Hc as [r [<- _]].
    rewrite spec_reason_present. reflexivity. }
  rewrite Hd. unfold reason_groups. apply mapM_ok. intros g _.
  unfold reasons.
  rewrite (group_values_rows (fun r => spec_reason (at_col k r)) (at_col v)).
  rewrite (sum_numeric _ (numeric_filter _ _ _ Hnum)). simpl.
  rewrite present_values_zero, map_map. reflexivity.
Qed.

Lemma summary_table_eq (df : DataFrame) (k v : nat) :
  index_of "Denial_reason" (columns df) = Some k ->
  index_of "Denied_amount" (columns df) = Some v ->
  numeric (map (at_col v) (rows df)) = true ->
  summary_table (unknown_filled k df) = Ok (top_reasons df k v).
Proof.
  intros Hk Hv Hnum. unfold summary_table.
  rewrite (groupby_reason df k v Hk Hv Hnum). reflexivity.
Qed.

Lemma reason_groups_keys (df : DataFrame) (k v : nat) :
  Permutation (map fst (sort_values_desc (reason_groups df k v)))
              (unique (reasons df k)).
Proof.
  unfold sort_values_desc. rewrite (isort_perm _ (reason_groups df k v)).
  unfold reason_groups. rewrite map_map. simpl. rewrite map_id.
  apply isort_perm.
Qed.

End TopReasonsFacts.

(** C3.  On a filtered frame with a numeric [Denied_amount] column, the
    top denial reasons are returned and are: one entry per category,
    where the category of a row with a missing [Denial_reason] is
    [Unknown]; each entry carrying the denied amount summed over the rows
    of its category; in descending order of that sum; at most 10 of them,
    and no left-out category has a larger sum than a listed one.  With
    more than 10 distinct categories there are exactly 10 entries and the
    first has a sum greater than or equal to every other.  An empty field
    of the upload is a missing value in the table, never an empty text, so
    an empty [Denial_reason] is counted under [Unknown] as well. *)
Theorem top_denial_reasons (df : DataFrame) (k v : nat) :
  index_of "Denial_reason" (columns df) = Some k ->
  index_of "Denied_amount" (columns df) = Some v ->
  numeric (map (at_col v) (rows df)) = true ->
  (forall st l, nth_error (frames st) l = Some df ->
                fst (denial_summary l st) = Ok (top_reasons df k v)) /\
  (List.length (top_reasons df k v) <= 10)%nat /\
  (forall g t, In (g, t) (top_reasons df k v) ->
               In g (reasons df k) /\ t = reason_total df k v g) /\
  NoDup (map fst (top_reasons df k v)) /\
  StronglySorted (fun a b => snd b <= snd a) (top_reasons df k v) /\
  (forall g, In g (reasons df k) ->
             In (g, reason_total df k v g) (top_reasons df k v) \/
             forall e, In e (top_reasons df k v) -> reason_total df k v g <= snd e) /\
  ((10 < List.length (unique (reasons df k)))%nat ->
   List.length (top_reasons df k v) = 10%nat /\
   forall d rest e, top_reasons df k v = d :: rest -> In e rest -> snd e <= snd d) /\
  (forall file raw r j, read_csv file = Ok raw -> In r (rows raw) ->
                        at_col j r <> Str "").
Proof.
  intros Hk Hv Hnum.
  pose proof (sort_values_desc_sorted (reason_groups df k v)) as Hsorted.
  assert (Hperm : Permutation (sort_values_desc (reason_groups df k v))
                              (reason_groups df k v))
    by apply isort_perm.
  split; [| split; [| split; [| split; [| split; [| split; [| split]]]]]].
  8:{ intros file raw r j Hread Hr E.
      pose proof (read_csv_cells file raw r j Hread Hr) as Hcell.
      rewrite E in Hcell. discriminate Hcell. }
  - intros st l Hl. unfold denial_summary, bindM, read, lift, write.
    rewrite Hl, (fill_unknown_eq df k Hk). simpl.
    rewrite (nth_error_update_same _ _ (unknown_filled k df) df Hl).
    simpl. apply summary_table_eq; assumption.
  - unfold top_reasons, head. rewrite length_firstn. lia.
  - intros g t Hin. unfold top_reasons, head in Hin.
    apply In_firstn in Hin. apply (Permutation_in _ Hperm) in Hin.
    unfold reason_groups in Hin. apply in_map_iff in Hin.
    destruct Hin as [g' [Heq Hg']]. injection Heq as -> <-.
    split; [| reflexivity].
    apply (Permutation_in _ (isort_perm cell_leb _)) in Hg'.
    apply unique_In. exact Hg'.
  - unfold top_reasons, head. rewrite <- firstn_map. apply NoDup_firstn.
    apply (Permutation_NoDup (l := unique (reasons df k))).
    + symmetry. apply reason_groups_keys.
    + apply unique_NoDup.
  - unfold top_reasons, head. apply StronglySorted_firstn. exact Hsorted.
  - intros g Hg. unfold top_reasons, head.
    assert (Hin : In (g, reason_total df k v g)
                     (sort_values_desc (reason_groups df k v))).
    { apply (Permutation_in _ (Permutation_sym Hperm)).
      unfold reason_groups.
      apply (in_map (fun g0 => (g0, reason_total df k v g0))).
      apply (Permutation_in _ (Permutation_sym (isort_perm cell_leb _))).
      apply unique_In. exact Hg. }
    rewrite <- (firstn_skipn 10 (sort_values_desc (reason_groups df k v))) in Hin.
    apply in_app_or in Hin. destruct Hin as [Hin | Hin]; [left; exact Hin |].
    right. intros e He.
    rewrite <- (firstn_skipn 10 (sort_values_desc (reason_groups df k v))) in Hsorted.
    revert Hsorted He Hin.
    generalize (firstn 10 (sort_values_desc (reason_groups df k v))) as pre.
    generalize (skipn 10 (sort_values_desc (reason_groups df k v))) as post.
    intros post pre. induction pre as [| x pre IH]; simpl; intros Hs He Hin;
      [destruct He |].
    inversion Hs as [| ? ? Hs' Hall]; subst.
    destruct He as [<- | He]; [| apply IH; assumption].
    rewrite Forall_forall in Hall.
    apply (Hall (g, reason_total df k v g)). apply in_or_app. right. exact Hin.
  - intros Hmany.
    assert (Hlen : List.length (sort_values_desc (reason_groups df k v)) =
                   List.length (unique (reasons df k))).
    { rewrite (Permutation_length Hperm). unfold reason_groups.
      rewrite length_map. apply Permutation_length. apply isort_perm. }
    split.
    + unfold top_reasons, head. rewrite length_firstn. lia.
    + intros d rest e Heq Hin.
      assert (Hs : StronglySorted (fun a b => snd b <= snd a) (top_reasons df k v))
        by (apply StronglySorted_firstn; exact Hsorted).
      rewrite Heq in Hs. inversion Hs as [| ? ? _ Hall]; subst.
      rewrite Forall_forall in Hall. apply Hall. exact Hin.
Qed.

Example many_reasons_top :
  summary_table (unknown_filled 1 many_reasons_df) =
    Ok [(Str "Not covered", 90); (Str "Missing info", 70); (Str "Unknown", 60);
        (Str "Medical necessity", 45); (Str "Out of network", 30);
        (Str "Eligibility", 25); (Str "Late filing", 20);
        (Str "Duplicate claim", 15); (Str "No authorization", 10);
        (Str "Coding error", 5)] /\
  List.length (unique (reasons many_reasons_df 1)) = 12%nat.
Proof. split; reflexivity. Qed.

Lemma top_denial_reasons_witness :
  fst (denial_summary 0%nat (mkStore [sample_df] (Some 0%nat))) =
    Ok [(Str "Missing info", 2000); (Str "Unknown", 0)] /\
  StronglySorted (fun a b => snd b <= snd a) (top_reasons sample_df 12 11).
Proof.
  pose proof (top_denial_reasons sample_df 12 11 eq_refl eq_refl eq_refl) as H.
  split.
  - apply (proj1 H (mkStore [sample_df] (Some 0%nat)) 0%nat eq_refl).
  - apply H.
Defined.

Example sample_file_loads : load_data iso_convert sample_file = Ok sample_df.
Proof. reflexivity. Qed.

(* ===================================================================== *)
(** ** Monthly denial trend *)

Section TrendFacts.

Lemma month_keys_datetime (s : Series) :
  datetime s = true -> month_keys s = Ok (map cell_month s).
Proof.
  intros H. unfold month_keys. apply mapM_ok. intros c Hc.
  unfold datetime in H. rewrite forallb_forall in H. specialize (H c Hc).
  destruct c; try discriminate; reflexivity.
Qed.

Lemma month_values_rows (k v : nat) (rs : list (list cell)) (m : Z) :
  month_values (map (fun r => cell_month (at_col k r)) rs) (map (at_col v) rs) m =
  map (at_col v) (filter (in_month k m) rs).
Proof.
  unfold month_values, in_month.
  induction rs as [| r rs IH]; simpl; [reflexivity |].
  destruct (cell_month (at_col k r)) as [i |]; simpl;
    [destruct (i =? m); simpl |]; rewrite IH; reflexivity.
Qed.

Lemma isort_sorted_id {X : Type} (leb : X -> X -> bool) (l : list X) :
  StronglySorted (fun a b => leb a b = true) l -> isort leb l = l.
Proof.
  intros Hs. induction Hs as [| x l Hs IH Hall]; simpl; [reflexivity |].
  rewrite IH. destruct l as [| y l]; simpl; [reflexivity |].
  inversion Hall as [| ? ? Hxy _]; subst. rewrite Hxy. reflexivity.
Qed.

Lemma StronglySorted_map {X Y : Type} (R : X -> X -> Prop) (S : Y -> Y -> Prop)
    (f : X -> Y) (l : list X) :
  (forall a b, R a b -> S (f a) (f b)) ->
  StronglySorted R l -> StronglySorted S (map f l).
Proof.
  intros H Hs. induction Hs as [| x l Hs IH Hall]; simpl; constructor;
    [exact IH |].
  rewrite Forall_forall in *. intros y Hy. apply in_map_iff in Hy.
  destruct Hy as [z [<- Hz]]. apply H. apply Hall. exact Hz.
Qed.

Lemma seq_sorted (a n : nat) : StronglySorted lt (seq a n).
Proof.
  revert a. induction n as [| n IH]; intros a; simpl; constructor;
    [apply IH |].
  rewrite Forall_forall. intros y Hy. apply in_seq in Hy. lia.
Qed.

Lemma zrange_sorted (lo hi : Z) : StronglySorted Z.lt (zrange lo hi).
Proof.
  unfold zrange. apply (StronglySorted_map lt); [| apply seq_sorted].
  intros a b Hab. lia.
Qed.

Lemma zrange_In (lo hi x : Z) : In x (zrange lo hi) <-> lo <= x <= hi.
Proof.
  unfold zrange. rewrite in_map_iff. split.
  - intros [n [<- Hn]]. apply in_seq in Hn. lia.
  - intros H. exists (Z.to_nat (x - lo)). split; [lia |].
    apply in_seq. lia.
Qed.

Lemma month_end_index (m : Z) : month_index (month_end m) = m.
Proof.
  unfold month_index, month_end. simpl.
  pose proof (Z.div_mod m 12). lia.
Qed.

Lemma month_end_leb (a b : Z) :
  a < b -> ts_leb (month_end a) (month_end b) = true.
Proof.
  intros Hab. unfold ts_leb, month_end. simpl.
  assert (H : a / 12 < b / 12 \/ (a / 12 = b / 12 /\ a mod 12 < b mod 12)).
  { pose proof (Z.div_mod a 12). pose proof (Z.div_mod b 12).
    pose proof (Z.mod_pos_bound a 12). pose proof (Z.mod_pos_bound b 12). lia. }
  destruct H as [H | [H1 H2]].
  - apply Z.ltb_lt in H. rewrite H. reflexivity.
  - rewrite H1, Z.eqb_refl. simpl.
    apply orb_true_iff. right.
    apply orb_true_iff. left. apply Z.ltb_lt. lia.
Qed.

Lemma monthly_trend_sorted (df : DataFrame) (k v : nat) :
  sort_values_ts (monthly_trend df k v) = monthly_trend df k v.
Proof.
  unfold sort_values_ts. apply isort_sorted_id.
  unfold monthly_trend, month_span.
  destruct (dated_months df k) as [| i rest]; [constructor |].
  apply (StronglySorted_map Z.lt); [| apply zrange_sorted].
  intros a b Hab. simpl. apply month_end_leb. exact Hab.
Qed.

Lemma trend_table_eq (df : DataFrame) (k v : nat) :
  index_of "claim_date" (columns df) = Some k ->
  index_of "Denied_amount" (columns df) = Some v ->
  datetime (map (at_col k) (rows df)) = true ->
  numeric (map (at_col v) (rows df)) = true ->
  some_date_or_no_row df k = true ->
  trend_table df = Ok (Some (monthly_trend df k v)).
Proof.
  intros Hk Hv Hdt Hnum Hsome. unfold trend_table, groupby_month_sum.
  rewrite (index_of_Some_mem _ _ _ Hk).
  rewrite (getitem_Some _ _ _ Hk), (getitem_Some _ _ _ Hv). cbn [bind].
  rewrite (month_keys_datetime _ Hdt). cbn [bind]. rewrite map_map.
  fold (dated_months df k).
  assert (Hbins : forall ms,
    mapM (fun m =>
            t <- sum (month_values (map (fun r => cell_month (at_col k r)) (rows df))
                        (map (at_col v) (rows df)) m) ;;
            Ok (month_end m, t)) ms =
    Ok (map (fun m => (month_end m, month_total df k v m)) ms)).
  { intros ms. apply mapM_ok. intros m _. rewrite month_values_rows.
    rewrite (sum_numeric _ (numeric_filter _ _ _ Hnum)). simpl.
    unfold month_total. rewrite present_values_zero, map_map. reflexivity. }
  pose proof (monthly_trend_sorted df k v) as Hsort.
  unfold monthly_trend, month_span in *.
  unfold some_date_or_no_row in Hsome.
  destruct (dated_months df k) as [| i rest].
  - destruct (rows df); [reflexivity | discriminate].
  - rewrite Hbins. cbn [bind]. rewrite Hsort. reflexivity.
Qed.

End TrendFacts.

Section TrendSums.


Lemma present_months_In (mk : list (option Z)) (m : Z) :
  In m (present_months mk) <-> In (Some m) mk.
Proof.
  unfold present_months. rewrite in_flat_map. split.
  - intros [o [Ho Hm]]. destruct o as [i |]; simpl in Hm; [| tauto].
    destruct Hm as [<- | []]. exact Ho.
  - intros H. exists (Some m). simpl. auto.
Qed.





Lemma zsum_map_add {X : Type} (f g : X -> Z) (l : list X) :
  zsum (map (fun x => f x + g x) l) = zsum (map f l) + zsum (map g l).
Proof.
  induction l as [| x l IH]; simpl; [reflexivity | rewrite IH; lia].
Qed.

Lemma zsum_map_zero {X : Type} (l : list X) : zsum (map (fun _ => 0) l) = 0.
Proof. induction l as [| x l IH]; simpl; [reflexivity | exact IH]. Qed.



End TrendSums.



(** Float64 amounts do not regroup: three rows in the order January,
    February, January hold 672.69, 4237.32 and 3819.11; the denied amount
    summed over the rows in row order and the sum of the two month
    buckets are different float64 values (8729.12 and
    8729.119999999999).  This is why the sum of the buckets is stated
    for whole numbers that are added exactly. *)
Example float64_bucket_sums_differ :
  let january := Float64.float64_sum [Float64.january_first; Float64.january_second] in
  let february := Float64.float64_sum [Float64.february] in
  PrimFloat.eqb
    (Float64.float64_sum [january; february])
    (Float64.float64_sum
       [Float64.january_first; Float64.february; Float64.january_second])
  = false.
Proof. vm_compute. reflexivity. Qed.


(* ===================================================================== *)
(** ** Export and re-import *)

Section FieldFacts.





Lemma digit_val_char (d : Z) : 0 <= d <= 9 -> digit_val (digit_char d) = Some d.
Proof.
  intros H.
  assert (Hc : d = 0 \/ d = 1 \/ d = 2 \/ d = 3 \/ d = 4 \/ d = 5 \/ d = 6 \/
               d = 7 \/ d = 8 \/ d = 9) by lia.
  repeat (destruct Hc as [-> | Hc]; [reflexivity |]).
  rewrite Hc. reflexivity.
Qed.



End FieldFacts.

Section IsoDates.

Lemma two_digits (n : Z) : 0 <= n <= 99 -> 10 * (n / 10 mod 10) + n mod 10 = n.
Proof. intros H. Z.div_mod_to_equations. lia. Qed.

Lemma four_digits (n : Z) :
  0 <= n <= 9999 ->
  1000 * (n / 1000 mod 10) + 100 * (n / 100 mod 10) + 10 * (n / 10 mod 10)
  + n mod 10 = n.
Proof. intros H. Z.div_mod_to_equations. lia. Qed.

Lemma valid_date_bounds (t : Timestamp) :
  valid_date t = true ->
  1 <= year t <= 9999 /\ 1 <= month t <= 12 /\ 1 <= day t <= 31.
Proof.
  unfold valid_date. rewrite !andb_true_iff, !Z.leb_le.
  intros [[[[[? ?] ?] ?] ?] Hd].
  assert (days_in_month (year t) (month t) <= 31).
  { unfold days_in_month.
    destruct (month t =? 2); [destruct (is_leap (year t)); lia |].
    destruct ((month t =? 4) || (month t =? 6) || (month t =? 9)
              || (month t =? 11)); lia. }
  lia.
Qed.

(** The reader of [YYYY-MM-DD] gives back every valid date from its
    rendering. *)
Lemma parse_iso_render (t : Timestamp) :
  valid_date t = true -> parse_iso (render_ts t) = Some t.
Proof.
  intros Hv. destruct (valid_date_bounds t Hv) as [Hy [Hm Hd]].
  unfold parse_iso, render_ts.
  rewrite !digit_val_char
    by (match goal with
        | |- 0 <= ?x mod 10 <= 9 =>
            pose proof (Z.mod_pos_bound x 10 ltac:(lia)); lia
        end).
  rewrite (four_digits (year t)) by lia.
  rewrite (two_digits (month t)) by lia.
  rewrite (two_digits (day t)) by lia.
  destruct t as [y m d]. simpl in *. rewrite Hv. reflexivity.
Qed.

End IsoDates.

Section RoundTripFacts.















End RoundTripFacts.



(** Columns of texts that pandas reads back as numbers or booleans are
    not covered: a decimal, an exponent, an infinity and a boolean
    literal are no sure texts, a word and a code with a letter are. *)
Example literal_texts_not_reloadable :
  map surely_text ["12.50"; "1e3"; "-Infinity"; "True"; " 42 "; "00100"] =
    [false; false; false; false; false; false] /\
  map surely_text ["North"; "A00"; "Missing info"; "12.50 USD"] =
    [true; true; true; true] /\
  reloadable [Str "12.50"; Str "7"] = false /\
  reloadable [Str "True"; Str "False"] = false /\
  reloadable [Str "00100"] = false /\
  reloadable [Str "12.50"; NaN; Str "n.a."] = false /\
  reloadable [Str "A00"; NaN; Str "B00"] = true /\
  reloadable [Num 1000; NaN; Num 0] = true.
Proof. repeat split; reflexivity. Qed.


(* ===================================================================== *)
(** ** Further properties of the filter *)

Section FilterClosedForm.

Lemma getitem_Ok_inv (df : DataFrame) (name : string) (s : Series) :
  getitem df name = Ok s ->
  exists i, index_of name (columns df) = Some i /\ s = map (at_col i) (rows df).
Proof.
  unfold getitem. destruct (index_of name (columns df)) as [i |]; [| discriminate].
  intros H. injection H as <-. exists i. auto.
Qed.

Lemma filter_true {X : Type} (l : list X) : filter (fun _ => true) l = l.
Proof. induction l as [| x l IH]; simpl; congruence. Qed.

(** The filter in closed form, for a frame that has the three columns. *)
Lemma filter_rows_closed (df : DataFrame) (sr ss : list cell)
    (sd : list Timestamp) (i j k : nat) :
  index_of "Region" (columns df) = Some i ->
  index_of "Provider_Specialty" (columns df) = Some j ->
  index_of "claim_date" (columns df) = Some k ->
  filter_rows df sr ss sd =
  match sd with
  | [_] => Raise IndexError
  | _ => Ok (mkDF (columns df) (filter (kept sr ss sd i j k) (rows df)))
  end.
Proof.
  intros Hi Hj Hk. unfold filter_rows.
  rewrite (member_step df "Region" i sr Hi). cbn [bind].
  set (df1 := mkDF (columns df) _).
  rewrite (member_step df1 "Provider_Specialty" j ss Hj). cbn [bind].
  set (df2 := mkDF (columns df1) _).
  destruct sd as [| a [| b sd]].
  - simpl. unfold df2, df1. simpl. rewrite filter_filter. f_equal. f_equal.
    apply filter_ext. intros r. unfold kept. simpl. rewrite andb_true_r.
    reflexivity.
  - simpl. rewrite (getitem_Some df2 "claim_date" k Hk). reflexivity.
  - cbn [nonempty]. rewrite (getitem_Some df2 "claim_date" k Hk).
    cbn [bind tuple_item nth_error]. rewrite bool_index_between.
    unfold df2, df1. simpl. rewrite !filter_filter. f_equal. f_equal.
    apply filter_ext. intros r. unfold kept. simpl.
    rewrite ?andb_assoc. reflexivity.
Qed.

(** One step of the filter, whether it applies or not, selects rows by a
    predicate. *)
Lemma member_step_inv (df f : DataFrame) (name : string) (sel : list cell) :
  (if nonempty sel then
     s <- getitem df name ;; Ok (bool_index df (isin s sel))
   else Ok df) = Ok f ->
  exists p, f = mkDF (columns df) (filter p (rows df)).
Proof.
  destruct (nonempty sel).
  - destruct (getitem df name) as [s |] eqn:E; [| discriminate].
    destruct (getitem_Ok_inv df name s E) as [i [_ ->]].
    simpl. rewrite bool_index_isin. intros H. injection H as <-.
    eexists. reflexivity.
  - intros H. injection H as <-. exists (fun _ => true).
    rewrite filter_true. destruct df; reflexivity.
Qed.

Lemma filter_length_le {X : Type} (p : X -> bool) (l : list X) :
  (List.length (filter p l) <= List.length l)%nat.
Proof.
  induction l as [| x l IH]; simpl; [lia |]. destruct (p x); simpl; lia.
Qed.

End FilterClosedForm.

(** X1.  Whatever the selection, a filter that returns keeps the columns
    and returns rows of its input selected by one predicate, hence in
    their order and not more numerous. *)
Theorem filter_rows_subtable (df f : DataFrame) (sr ss : list cell)
    (sd : list Timestamp) :
  filter_rows df sr ss sd = Ok f ->
  columns f = columns df /\
  (exists p, rows f = filter p (rows df)) /\
  (List.length (rows f) <= List.length (rows df))%nat /\
  (forall r, In r (rows f) -> In r (rows df)).
Proof.
  intros H.
  assert (Hp : exists p, f = mkDF (columns df) (filter p (rows df))).
  { unfold filter_rows in H.
    destruct (if nonempty sr then _ else _) as [f1 |] eqn:E1; [| discriminate].
    destruct (member_step_inv df f1 "Region" sr E1) as [p1 ->].
    cbn [bind] in H.
    destruct (if nonempty ss then _ else _) as [f2 |] eqn:E2; [| discriminate].
    destruct (member_step_inv _ f2 "Provider_Specialty" ss E2) as [p2 ->].
    cbn [bind columns rows] in H. rewrite filter_filter in H.
    destruct (nonempty sd).
    - destruct (getitem _ "claim_date") as [s |] eqn:E3; [| discriminate].
      destruct (getitem_Ok_inv _ _ s E3) as [k [_ ->]]. cbn [bind] in H.
      destruct (tuple_item sd 0) as [d0 |]; [| discriminate].
      destruct (tuple_item sd 1) as [d1 |]; [| discriminate].
      cbn [bind] in H. rewrite bool_index_between in H.
      cbn [columns rows] in H. rewrite filter_filter in H.
      injection H as <-. eexists. reflexivity.
    - injection H as <-. eexists. reflexivity. }
  destruct Hp as [p ->]. simpl.
  split; [reflexivity |]. split; [exists p; reflexivity |].
  split; [apply filter_length_le |].
  intros r Hr. apply filter_In in Hr. tauto.
Qed.

Lemma filter_rows_subtable_witness :
  columns north_df = columns codes_df /\
  (exists p, rows north_df = filter p (rows codes_df)) /\
  (List.length (rows north_df) <= List.length (rows codes_df))%nat /\
  (forall r, In r (rows north_df) -> In r (rows codes_df)).
Proof.
  apply (filter_rows_subtable codes_df north_df [Str "North"] [] []).
  reflexivity.
Defined.

(** X2.  Filtering is idempotent: on a frame with the three filter
    columns, applying the same selection to the filtered frame returns
    the filtered frame. *)
Theorem filter_rows_idempotent (df f : DataFrame) (sr ss : list cell)
    (sd : list Timestamp) (i j k : nat) :
  index_of "Region" (columns df) = Some i ->
  index_of "Provider_Specialty" (columns df) = Some j ->
  index_of "claim_date" (columns df) = Some k ->
  filter_rows df sr ss sd = Ok f ->
  filter_rows f sr ss sd = Ok f.
Proof.
  intros Hi Hj Hk H.
  rewrite (filter_rows_closed df sr ss sd i j k Hi Hj Hk) in H.
  assert (Hf : f = mkDF (columns df) (filter (kept sr ss sd i j k) (rows df))).
  { destruct sd as [| a [| b sd]]; try discriminate; injection H as <-;
      reflexivity. }
  subst f.
  rewrite (filter_rows_closed
             (mkDF (columns df) (filter (kept sr ss sd i j k) (rows df)))
             sr ss sd i j k Hi Hj Hk).
  destruct sd as [| a [| b sd]]; try discriminate; simpl;
    rewrite filter_filter; f_equal; f_equal; apply filter_ext; intros r;
    apply andb_diag.
Qed.

Lemma filter_rows_idempotent_witness :
  filter_rows north_df [Str "North"] [] [mkTs 2025 1 1; mkTs 2025 12 31] =
  Ok north_df.
Proof.
  apply (filter_rows_idempotent codes_df north_df [Str "North"] []
           [mkTs 2025 1 1; mkTs 2025 12 31] 5 6 2); reflexivity.
Defined.

(* ===================================================================== *)
(** ** The pages as functions of the loaded frame *)

Section PageRuns.

Variable convert : cell -> option Timestamp.

Lemma load_data_schema (file : CsvFile) (loaded : DataFrame) :
  load_data convert file = Ok loaded -> has_schema loaded = true.
Proof.
  unfold load_data. destruct (read_csv file) as [df |]; [| discriminate].
  cbn [bind]. intros H.
  destruct (missing_columns df) as [| c cs] eqn:Em.
  - apply missing_columns_nil in Em.
    destruct (check_and_normalize_ok convert df Em) as [k [_ Hc]].
    rewrite Hc in H. injection H as <-. exact Em.
  - rewrite check_and_normalize_raise in H by (rewrite Em; discriminate).
    discriminate.
Qed.

Lemma has_schema_columns (df : DataFrame) :
  has_schema df = true ->
  exists i j k,
    index_of "Region" (columns df) = Some i /\
    index_of "Provider_Specialty" (columns df) = Some j /\
    index_of "claim_date" (columns df) = Some k.
Proof.
  intros Hs.
  destruct (has_schema_index df "Region" Hs) as [i Hi]; [simpl; tauto |].
  destruct (has_schema_index df "Provider_Specialty" Hs) as [j Hj];
    [simpl; tauto |].
  destruct (has_schema_index df "claim_date" Hs) as [k Hk]; [simpl; tauto |].
  exists i, j, k. auto.
Qed.

Lemma bindM_run {A B : Type} (m : M A) (k : A -> M B) (st st' : Store)
    (r : result A) :
  m st = (r, st') ->
  bindM m k st = match r with
                 | Ok a => k a st'
                 | Raise e => (Raise e, st')
                 end.
Proof. intros H. unfold bindM. rewrite H. destruct r; reflexivity. Qed.

Lemma read_lift_run {A : Type} (g : DataFrame -> result A) (l : ref)
    (f : DataFrame) (st : Store) :
  nth_error (frames st) l = Some f ->
  (x <~ read l ;; lift (g x)) st = (g f, st).
Proof.
  intros H. unfold bindM, read, lift. rewrite H. reflexivity.
Qed.

(** A run of the home page on an upload that loads: the frame becomes
    the dataset of the session, in a new object, and what is shown is
    [home_view] of it. *)
Lemma home_page_run (file : CsvFile) (loaded : DataFrame) (sr ss : list cell)
    (sd : list Timestamp) (st : Store) :
  load_data convert file = Ok loaded ->
  exists st',
    home_page convert (Some file) sr ss sd st = (home_view loaded sr ss sd, st') /\
    session_data st' = Some (List.length (frames st)) /\
    nth_error (frames st') (List.length (frames st)) = Some loaded /\
    (forall c df0, nth_error (frames st) c = Some df0 ->
                   nth_error (frames st') c = Some df0).
Proof.
  intros Hload.
  set (st1 := mkStore (frames st ++ [loaded]) (Some (List.length (frames st)))).
  assert (Htry :
    try_except
      (loaded0 <~ lift (load_data convert file) ;;
       df <~ new loaded0 ;;
       _ <~ set_session_data df ;;
       ret (Some df))
      (fun _ => ret None) st = (Ok (Some (List.length (frames st))), st1)).
  { unfold try_except, bindM, lift, new, set_session_data, ret.
    rewrite Hload. reflexivity. }
  assert (H1 : nth_error (frames st1) (List.length (frames st)) = Some loaded)
    by apply nth_error_new.
  destruct (apply_filters_run st1 (List.length (frames st)) loaded sr ss sd H1)
    as [st2 [Hext Hrun]].
  assert (Hkeep : session_data st2 = Some (List.length (frames st)) /\
                  nth_error (frames st2) (List.length (frames st)) = Some loaded /\
                  (forall c df0, nth_error (frames st) c = Some df0 ->
                                 nth_error (frames st2) c = Some df0)).
  { split; [destruct Hext as [E _]; exact E |].
    split; [apply (extends_lookup st1 st2 _ _ Hext H1) |].
    intros c df0 Hc. apply (extends_lookup st1 st2 _ _ Hext).
    simpl. apply nth_error_old. exact Hc. }
  exists st2. split; [| exact Hkeep].
  unfold home_page. rewrite (bindM_run _ _ _ _ _ Htry).
  unfold home_view.
  destruct (filter_rows loaded sr ss sd) as [f | e].
  - destruct Hrun as [l' [Hrun [Hl' _]]].
    rewrite (bindM_run _ _ _ _ _ Hrun). cbn [bind].
    unfold kpis, status_chart, denied_by_region, trend.
    rewrite (bindM_run _ _ _ _ _ (read_lift_run totals l' f st2 Hl')).
    destruct (totals f); cbn [bind]; [| reflexivity].
    rewrite (bindM_run _ _ _ _ _ (read_lift_run status_table l' f st2 Hl')).
    destruct (status_table f); cbn [bind]; [| reflexivity].
    rewrite (bindM_run _ _ _ _ _ (read_lift_run region_table l' f st2 Hl')).
    destruct (region_table f); cbn [bind]; [| reflexivity].
    rewrite (bindM_run _ _ _ _ _ (read_lift_run trend_table l' f st2 Hl')).
    destruct (trend_table f); cbn [bind]; [| reflexivity].
    unfold download_button, bindM, read, ret. rewrite Hl'. reflexivity.
  - rewrite (bindM_run _ _ _ _ _ Hrun). reflexivity.
Qed.

(** A run of the page of the top denial reasons on a session that holds a
    dataset shows [top_view] of it. *)
Lemma top_denial_page_run (st : Store) (sr ss : list cell)
    (sd : list Timestamp) (c : ref) (canon : DataFrame) :
  session_data st = Some c ->
  nth_error (frames st) c = Some canon ->
  fst (top_denial_page sr ss sd st) = top_view canon sr ss sd.
Proof.
  intros Hs Hc. unfold top_denial_page.
  assert (Hget : get_session_data st = (Ok (Some c), st))
    by (unfold get_session_data; rewrite Hs; reflexivity).
  rewrite (bindM_run _ _ _ _ _ Hget).
  destruct (apply_filters_run st c canon sr ss sd Hc) as [st1 [_ Hrun]].
  unfold top_view.
  destruct (filter_rows canon sr ss sd) as [f | e].
  - destruct Hrun as [l' [Hrun [Hl' _]]].
    rewrite (bindM_run _ _ _ _ _ Hrun). cbn [bind].
    unfold denial_summary, download_button, bindM, read, lift, write, ret.
    rewrite Hl'.
    destruct (fill_unknown f) as [filled | e]; cbn [bind]; [| reflexivity].
    simpl frames. rewrite (nth_error_update_same _ _ filled f Hl').
    destruct (summary_table filled); cbn [bind]; [| reflexivity].
    simpl frames. rewrite (nth_error_update_same _ _ filled f Hl').
    reflexivity.
  - rewrite (bindM_run _ _ _ _ _ Hrun). reflexivity.
Qed.


End PageRuns.

(** X3.  While the date input holds a single date, the filter raises
    [IndexError] on every loaded frame; on the home page this happens
    after the upload has been stored, so the session holds the new
    dataset although the page shows nothing. *)
Theorem one_date_selected (convert : cell -> option Timestamp) (file : CsvFile)
    (loaded : DataFrame) (sr ss : list cell) (d : Timestamp) (st : Store) :
  load_data convert file = Ok loaded ->
  filter_rows loaded sr ss [d] = Raise IndexError /\
  exists st',
    home_page convert (Some file) sr ss [d] st = (Raise IndexError, st') /\
    session_data st' = Some (List.length (frames st)) /\
    nth_error (frames st') (List.length (frames st)) = Some loaded.
Proof.
  intros Hload.
  destruct (has_schema_columns loaded (load_data_schema convert file loaded Hload))
    as [i [j [k [Hi [Hj Hk]]]]].
  pose proof (filter_rows_closed loaded sr ss [d] i j k Hi Hj Hk) as Hf.
  split; [exact Hf |].
  destruct (home_page_run convert file loaded sr ss [d] st Hload)
    as [st' [Hrun [Hs [Hl _]]]].
  exists st'. unfold home_view in Hrun. rewrite Hf in Hrun. auto.
Qed.

Lemma one_date_selected_witness :
  filter_rows sample_df [] [] [mkTs 2025 1 1] = Raise IndexError /\
  exists st',
    home_page iso_convert (Some sample_file) [] [] [mkTs 2025 1 1]
      (mkStore [] None) = (Raise IndexError, st') /\
    session_data st' = Some 0%nat /\
    nth_error (frames st') 0 = Some sample_df.
Proof.
  apply (one_date_selected iso_convert sample_file sample_df [] []
           (mkTs 2025 1 1) (mkStore [] None)).
  reflexivity.
Defined.





(** X11.  Whatever [load_data] raises (an empty text, a record with too
    many fields, missing columns), the home page catches it, stores
    nothing and stops on the unbound name [df], leaving the store as it
    was; a dataset loaded earlier stays the dataset of the session, and
    the page of the top denial reasons goes on showing it. *)
Theorem load_error_keeps_session (convert : cell -> option Timestamp)
    (file : CsvFile) (e : exn) (sr ss : list cell) (sd : list Timestamp)
    (st : Store) :
  load_data convert file = Raise e ->
  home_page convert (Some file) sr ss sd st = (Raise (NameError "df"), st) /\
  forall c canon sr' ss' sd',
    session_data st = Some c -> nth_error (frames st) c = Some canon ->
    fst (top_denial_page sr' ss' sd'
           (snd (home_page convert (Some file) sr ss sd st))) =
    top_view canon sr' ss' sd'.
Proof.
  intros Hload.
  assert (H : home_page convert (Some file) sr ss sd st =
              (Raise (NameError "df"), st)).
  { unfold home_page, bindM, try_except, lift. rewrite Hload. reflexivity. }
  split; [exact H |].
  intros c canon sr' ss' sd' Hs Hc. rewrite H. simpl snd.
  apply (top_denial_page_run st sr' ss' sd' c canon Hs Hc).
Qed.

Lemma load_error_keeps_session_witness :
  home_page iso_convert (Some []) [] [] [] (mkStore [sample_df] (Some 0%nat)) =
    (Raise (NameError "df"), mkStore [sample_df] (Some 0%nat)).
Proof.
  apply (load_error_keeps_session iso_convert [] EmptyDataError [] [] []
           (mkStore [sample_df] (Some 0%nat))).
  reflexivity.
Defined.

(* ===================================================================== *)
(** ** The filter widgets and their default selection *)

Section DateOrder.

Lemma ts_leb_iff (a b : Timestamp) :
  ts_leb a b = true <->
  year a < year b \/
  (year a = year b /\
   (month a < month b \/ (month a = month b /\ day a <= day b))).
Proof.
  unfold ts_leb.
  rewrite !orb_true_iff, !andb_true_iff, !orb_true_iff, !andb_true_iff,
    !Z.ltb_lt, !Z.eqb_eq, Z.leb_le.
  reflexivity.
Qed.

Lemma ts_leb_refl (a : Timestamp) : ts_leb a a = true.
Proof. apply ts_leb_iff. lia. Qed.

Lemma ts_leb_trans (a b c : Timestamp) :
  ts_leb a b = true -> ts_leb b c = true -> ts_leb a c = true.
Proof. rewrite !ts_leb_iff. lia. Qed.

Lemma ts_leb_total (a b : Timestamp) : ts_leb a b = true \/ ts_leb b a = true.
Proof. rewrite !ts_leb_iff. lia. Qed.

Lemma fold_ts_min_le (t : Timestamp) (rest : list Timestamp) (x : Timestamp) :
  In x (t :: rest) -> ts_leb (fold_right ts_min t rest) x = true.
Proof.
  induction rest as [| y rest IH]; simpl.
  - intros [<- | []]. apply ts_leb_refl.
  - unfold ts_min at 1.
    destruct (ts_leb y (fold_right ts_min t rest)) eqn:E.
    + intros [<- | [<- | H]].
      * apply (ts_leb_trans _ _ _ E). apply IH. left. reflexivity.
      * apply ts_leb_refl.
      * apply (ts_leb_trans _ _ _ E). apply IH. right. exact H.
    + intros [<- | [<- | H]].
      * apply IH. left. reflexivity.
      * destruct (ts_leb_total y (fold_right ts_min t rest)); congruence.
      * apply IH. right. exact H.
Qed.

Lemma fold_ts_max_ge (t : Timestamp) (rest : list Timestamp) (x : Timestamp) :
  In x (t :: rest) -> ts_leb x (fold_right ts_max t rest) = true.
Proof.
  induction rest as [| y rest IH]; simpl.
  - intros [<- | []]. apply ts_leb_refl.
  - unfold ts_max at 1.
    destruct (ts_leb y (fold_right ts_max t rest)) eqn:E.
    + intros [<- | [<- | H]].
      * apply IH. left. reflexivity.
      * exact E.
      * apply IH. right. exact H.
    + assert (Hge : ts_leb (fold_right ts_max t rest) y = true)
        by (destruct (ts_leb_total y (fold_right ts_max t rest)); congruence).
      intros [<- | [<- | H]].
      * apply (ts_leb_trans _ (fold_right ts_max t rest)); [| exact Hge].
        apply IH. left. reflexivity.
      * apply ts_leb_refl.
      * apply (ts_leb_trans _ (fold_right ts_max t rest)); [| exact Hge].
        apply IH. right. exact H.
Qed.

Lemma datetimes_In (s : Series) (ts : list Timestamp) (t : Timestamp) :
  datetimes s = Ok ts -> In (Ts t) s -> In t ts.
Proof.
  revert ts. induction s as [| c s IH]; simpl; intros ts H Hin; [destruct Hin |].
  destruct c; try discriminate.
  - destruct (datetimes s) as [ts' |]; [| discriminate].
    injection H as <-. destruct Hin as [E | Hin].
    + injection E as ->. left. reflexivity.
    + right. apply (IH ts' eq_refl Hin).
  - destruct Hin as [E | Hin]; [discriminate |]. apply (IH ts H Hin).
Qed.

End DateOrder.

Section DefaultSelection.

Lemma unique_nil (s : Series) : unique s = [] -> s = [].
Proof. destruct s; [reflexivity | discriminate]. Qed.

Lemma dropna_In (s : Series) (c : cell) :
  In c (dropna s) <-> In c s /\ isna c = false.
Proof. unfold dropna. rewrite filter_In, negb_true_iff. reflexivity. Qed.

(** The options of a column, used as the selection, pass the rows whose
    value is present; when no value is present there is no option and
    the step is skipped. *)
Lemma options_pass (col : Series) (c : cell) :
  In c col ->
  spec_member_pass (unique (dropna col)) c = all_missing col || present c.
Proof.
  intros Hc. unfold present.
  destruct (unique (dropna col)) as [| o opts] eqn:E.
  - apply unique_nil in E. simpl.
    assert (Hall : all_missing col = true).
    { unfold all_missing. apply forallb_forall. intros x Hx.
      destruct (isna x) eqn:Ex; [reflexivity |].
      assert (Hin : In x (dropna col)) by (apply dropna_In; auto).
      rewrite E in Hin. destruct Hin. }
    rewrite Hall. reflexivity.
  - assert (Ho : In o (dropna col))
      by (apply unique_In; rewrite E; left; reflexivity).
    apply dropna_In in Ho. destruct Ho as [Hoc Hon].
    assert (Hall : all_missing col = false).
    { unfold all_missing. apply not_true_iff_false. intros H.
      rewrite forallb_forall in H. rewrite (H o Hoc) in Hon. discriminate. }
    rewrite Hall. simpl orb. rewrite <- E. unfold spec_member_pass.
    rewrite E, <- E.
    destruct (isna c) eqn:Ec; simpl.
    + apply not_true_iff_false. intros H. apply existsb_exists in H.
      destruct H as [x [Hx Heq]]. apply cell_eqb_eq in Heq. subst x.
      apply unique_In, dropna_In in Hx. destruct Hx as [_ Hx]. congruence.
    + apply existsb_exists. exists c. split; [| apply cell_eqb_refl].
      apply unique_In, dropna_In. auto.
Qed.

End DefaultSelection.

(** X5.  The options offered for a column are its present values, each
    exactly once: no option is missing, none is repeated, every option
    occurs in the column and every present value of the column is an
    option. *)
Theorem column_options_distinct (df : DataFrame) (name : string) (i : nat) :
  index_of name (columns df) = Some i ->
  exists opts,
    column_options df name = Ok opts /\
    NoDup opts /\
    forall c, In c opts <->
              (isna c = false /\ exists r, In r (rows df) /\ at_col i r = c).
Proof.
  intros Hi. unfold column_options. rewrite (getitem_Some _ _ _ Hi).
  eexists. split; [reflexivity |]. split; [apply unique_NoDup |].
  intros c. rewrite unique_In, dropna_In, in_map_iff. split.
  - intros [[r [E Hr]] Hn]. split; [exact Hn | exists r; auto].
  - intros [Hn [r [Hr E]]]. split; [exists r; auto | exact Hn].
Qed.

Lemma column_options_distinct_witness :
  exists opts,
    column_options sample_df "Region" = Ok opts /\
    NoDup opts /\
    forall c, In c opts <->
              (isna c = false /\ exists r, In r (rows sample_df) /\ at_col 5 r = c).
Proof.
  apply (column_options_distinct sample_df "Region" 5). reflexivity.
Defined.

(** X4.  With every region option and every specialty option selected
    (the default of the two multi-selections), whatever dates are
    selected, the filter keeps exactly the rows with a present region and
    a present specialty that pass the date selection; a multi-selection
    without any option (a column with no present value) filters nothing,
    and a selection of one date alone is an [IndexError].  With no date
    selected, on a frame without missing region or specialty, every row
    is kept. *)
Theorem default_selection_keeps_present (df : DataFrame) (i j k : nat)
    (ro so : list cell) (sd : list Timestamp) :
  index_of "Region" (columns df) = Some i ->
  index_of "Provider_Specialty" (columns df) = Some j ->
  index_of "claim_date" (columns df) = Some k ->
  column_options df "Region" = Ok ro ->
  column_options df "Provider_Specialty" = Ok so ->
  filter_rows df ro so sd =
    match sd with
    | [_] => Raise IndexError
    | _ =>
        Ok (mkDF (columns df)
              (filter (fun r =>
                         (all_missing (map (at_col i) (rows df))
                          || present (at_col i r))
                         && (all_missing (map (at_col j) (rows df))
                             || present (at_col j r))
                         && date_pass sd (at_col k r))
                      (rows df)))
    end /\
  ((forall r, In r (rows df) ->
      present (at_col i r) = true /\ present (at_col j r) = true) ->
   filter_rows df ro so [] = Ok df).
Proof.
  intros Hi Hj Hk Hro Hso.
  unfold column_options in Hro, Hso.
  rewrite (getitem_Some _ _ _ Hi) in Hro. rewrite (getitem_Some _ _ _ Hj) in Hso.
  cbn [bind] in Hro, Hso. injection Hro as <-. injection Hso as <-.
  assert (Hkept : forall sd0 r, In r (rows df) ->
            kept (unique (dropna (map (at_col i) (rows df))))
                 (unique (dropna (map (at_col j) (rows df)))) sd0 i j k r =
            (all_missing (map (at_col i) (rows df)) || present (at_col i r))
            && (all_missing (map (at_col j) (rows df)) || present (at_col j r))
            && date_pass sd0 (at_col k r)).
  { intros sd0 r Hr. unfold kept.
    rewrite (options_pass (map (at_col i) (rows df)) (at_col i r))
      by (apply in_map; exact Hr).
    rewrite (options_pass (map (at_col j) (rows df)) (at_col j r))
      by (apply in_map; exact Hr).
    reflexivity. }
  split.
  - rewrite (filter_rows_closed df _ _ sd i j k Hi Hj Hk).
    destruct sd as [| a [| b sd]]; try reflexivity;
      f_equal; f_equal; apply filter_ext_in; intros r Hr; apply Hkept; exact Hr.
  - intros Hall. rewrite (filter_rows_closed df _ _ [] i j k Hi Hj Hk).
    f_equal. destruct df as [cols rs]. simpl in *. f_equal.
    apply filter_all. intros r Hr. rewrite (Hkept [] r Hr).
    destruct (Hall r Hr) as [H1 H2]. rewrite H1, H2.
    rewrite !orb_true_r. reflexivity.
Qed.

Lemma default_selection_keeps_present_witness :
  filter_rows sample_df [Str "North"; Str "South"]
    [Str "Cardiology"; Str "Orthopedics"] [] = Ok sample_df /\
  filter_rows sample_df [Str "North"; Str "South"]
    [Str "Cardiology"; Str "Orthopedics"] [mkTs 2025 1 1; mkTs 2025 1 31] =
  Ok (mkDF (columns sample_df)
        (filter (fun r => date_pass [mkTs 2025 1 1; mkTs 2025 1 31] (at_col 2 r))
                (rows sample_df))).
Proof.
  pose proof (default_selection_keeps_present sample_df 5 6 2
                [Str "North"; Str "South"] [Str "Cardiology"; Str "Orthopedics"])
    as H.
  split.
  - apply (proj2 (H [] eq_refl eq_refl eq_refl eq_refl eq_refl)).
    intros r Hr. simpl in Hr.
    destruct Hr as [<- | [<- | []]]; split; reflexivity.
  - exact (proj1 (H [mkTs 2025 1 1; mkTs 2025 1 31]
                    eq_refl eq_refl eq_refl eq_refl eq_refl)).
Defined.

(* ===================================================================== *)
(** ** Grouped aggregates: status breakdown and denied amount by region *)

Section KeyOrder.

Lemma string_leb_trans (s1 s2 s3 : string) :
  String.leb s1 s2 = true -> String.leb s2 s3 = true -> String.leb s1 s3 = true.
Proof.
  unfold String.leb. revert s2 s3.
  induction s1 as [| a s1 IH]; intros [| b s2] [| c s3]; simpl;
    try congruence.
  unfold Ascii.compare.
  destruct (N.compare_spec (N_of_ascii a) (N_of_ascii b)) as [E1 | L1 | G1];
    destruct (N.compare_spec (N_of_ascii b) (N_of_ascii c)) as [E2 | L2 | G2];
    destruct (N.compare_spec (N_of_ascii a) (N_of_ascii c)) as [E3 | L3 | G3];
    try congruence; try lia; try (intros; reflexivity).
  apply IH.
Qed.

Lemma cell_leb_total (a b : cell) : cell_leb a b = true \/ cell_leb b a = true.
Proof.
  destruct a, b; simpl; auto.
  - apply String.leb_total.
  - rewrite !Z.leb_le. lia.
  - apply ts_leb_total.
Qed.

Lemma cell_leb_trans (a b c : cell) :
  cell_leb a b = true -> cell_leb b c = true -> cell_leb a c = true.
Proof.
  destruct a, b, c; simpl; try congruence.
  - apply string_leb_trans.
  - rewrite !Z.leb_le. lia.
  - apply ts_leb_trans.
Qed.

End KeyOrder.

Section GroupSums.

Lemma zsum_perm (l l' : list Z) : Permutation l l' -> zsum l = zsum l'.
Proof.
  intros H. induction H; simpl; lia.
Qed.

Lemma zsum_ones {X : Type} (l : list X) :
  zsum (map (fun _ => 1) l) = Z.of_nat (List.length l).
Proof.
  induction l as [| x l IH]; [reflexivity |].
  change (1 + zsum (map (fun _ => 1) l) = Z.of_nat (S (List.length l))).
  rewrite IH. lia.
Qed.

Lemma zsum_key_indicator (keys : list cell) (k : cell) (a : Z) :
  NoDup keys -> In k keys ->
  zsum (map (fun g => if cell_eqb k g then a else 0) keys) = a.
Proof.
  intros Hn. induction Hn as [| x l Hx Hn IH]; simpl; [tauto |].
  intros [-> | Hin].
  - rewrite cell_eqb_refl.
    assert (Hz : zsum (map (fun g => if cell_eqb k g then a else 0) l) = 0).
    { clear IH Hn. induction l as [| y l IHl]; simpl; [reflexivity |].
      destruct (cell_eqb k y) eqn:E.
      - apply cell_eqb_eq in E. subst. exfalso. apply Hx. left. reflexivity.
      - rewrite IHl; [reflexivity |]. intros H. apply Hx. right. exact H. }
    rewrite Hz. lia.
  - destruct (cell_eqb k x) eqn:E.
    + apply cell_eqb_eq in E. subst. contradiction.
    + rewrite (IH Hin). reflexivity.
Qed.

(** Summing the per-key sums over a duplicate-free list of keys that
    covers the elements gives the sum over all elements. *)
Lemma group_sums_total {X : Type} (key : X -> cell) (w : X -> Z)
    (keys : list cell) (l : list X) :
  NoDup keys ->
  (forall x, In x l -> In (key x) keys) ->
  zsum (map (fun g => zsum (map w (filter (fun x => cell_eqb (key x) g) l))) keys) =
  zsum (map w l).
Proof.
  intros Hn. induction l as [| x l IH]; intros Hcover.
  - simpl. apply zsum_map_zero.
  - assert (Hstep : forall g,
      zsum (map w (filter (fun x0 => cell_eqb (key x0) g) (x :: l))) =
      (if cell_eqb (key x) g then w x else 0) +
      zsum (map w (filter (fun x0 => cell_eqb (key x0) g) l))).
    { intros g. simpl. destruct (cell_eqb (key x) g); reflexivity. }
    rewrite (map_ext _ _ Hstep), zsum_map_add.
    rewrite IH by (intros y Hy; apply Hcover; right; exact Hy).
    rewrite (zsum_key_indicator keys (key x) (w x) Hn
               (Hcover x (or_introl eq_refl))).
    reflexivity.
Qed.

Lemma cell_eqb_sym (a b : cell) : cell_eqb a b = cell_eqb b a.
Proof.
  destruct (cell_eqb a b) eqn:E.
  - apply cell_eqb_eq in E. subst. symmetry. apply cell_eqb_refl.
  - symmetry. apply cell_eqb_neq. apply cell_eqb_neq in E. congruence.
Qed.

End GroupSums.

(** X6.  The status breakdown of a frame with a [Claim_Status] column
    lists every present status exactly once with the number of rows
    holding it, which is at least 1, most frequent first; rows with a
    missing status are counted nowhere, so the counts add up to the
    number of rows with a present status. *)
Theorem status_breakdown (df : DataFrame) (i : nat) :
  index_of "Claim_Status" (columns df) = Some i ->
  let col := map (at_col i) (rows df) in
  status_table df = Ok (Some (value_counts col)) /\
  NoDup (map fst (value_counts col)) /\
  (forall g n, In (g, n) (value_counts col) ->
               isna g = false /\ n = count_of col g /\ 1 <= n) /\
  (forall g, In g col -> isna g = false ->
             In (g, count_of col g) (value_counts col)) /\
  StronglySorted (fun a b => snd b <= snd a) (value_counts col) /\
  zsum (map snd (value_counts col)) = Z.of_nat (List.length (dropna col)).
Proof.
  intros Hi col.
  set (base := map (fun g => (g, count_of col g)) (unique (dropna col))).
  assert (Hperm : Permutation (value_counts col) base) by apply isort_perm.
  assert (Hkeys : map fst base = unique (dropna col)).
  { unfold base. rewrite map_map. simpl. apply map_id. }
  split.
  { unfold status_table. rewrite (index_of_Some_mem _ _ _ Hi).
    rewrite (getitem_Some _ _ _ Hi). reflexivity. }
  split.
  { apply (Permutation_NoDup (l := map fst base)).
    - symmetry. apply Permutation_map. exact Hperm.
    - rewrite Hkeys. apply unique_NoDup. }
  split.
  { intros g n Hin. apply (Permutation_in _ Hperm) in Hin.
    unfold base in Hin. apply in_map_iff in Hin.
    destruct Hin as [g' [E Hg']]. injection E as -> <-.
    apply unique_In, dropna_In in Hg'. destruct Hg' as [Hg Hn].
    split; [exact Hn |]. split; [reflexivity |].
    unfold count_of.
    assert (Hf : In g (filter (cell_eqb g) col))
      by (apply filter_In; split; [exact Hg | apply cell_eqb_refl]).
    destruct (filter (cell_eqb g) col); [destruct Hf | simpl List.length; lia]. }
  split.
  { intros g Hg Hn. apply (Permutation_in _ (Permutation_sym Hperm)).
    unfold base. apply (in_map (fun g0 => (g0, count_of col g0))).
    apply unique_In, dropna_In. auto. }
  split; [apply sort_values_desc_sorted |].
  rewrite (zsum_perm _ _ (Permutation_map snd Hperm)).
  unfold base. rewrite map_map. simpl.
  rewrite <- (zsum_ones (dropna col)).
  rewrite <- (group_sums_total (fun c => c) (fun _ => 1) (unique (dropna col))
                (dropna col) (unique_NoDup _)
                (fun x Hx => proj2 (unique_In _ x) Hx)).
  f_equal. apply map_ext_in. intros g Hg.
  apply unique_In, dropna_In in Hg. destruct Hg as [_ Hn].
  rewrite zsum_ones. unfold count_of, dropna. rewrite filter_filter.
  f_equal. f_equal. apply filter_ext. intros x.
  rewrite (cell_eqb_sym g x).
  destruct (cell_eqb x g) eqn:E; [| symmetry; apply andb_false_r].
  apply cell_eqb_eq in E. subst x. rewrite Hn. reflexivity.
Qed.

Lemma status_breakdown_witness :
  status_table sample_df = Ok (Some [(Str "Approved", 1); (Str "Denied", 1)]) /\
  zsum (map snd (value_counts (map (at_col 8) (rows sample_df)))) =
    Z.of_nat (List.length (dropna (map (at_col 8) (rows sample_df)))).
Proof.
  pose proof (status_breakdown sample_df 8 eq_refl) as H.
  split; [apply H |].
  apply (proj2 (proj2 (proj2 (proj2 (proj2 H))))).
Defined.

(** X7.  On a frame whose [Denied_amount] column holds whole numbers
    that are added exactly (their absolute values add up to less than
    2^53), the denied amount by region lists every present region
    exactly once, in ascending order of the region label, with the
    denied amount summed over its rows; rows without a region are left
    out, so the amounts add up to the denied amount of the rows that
    have a region, and, when no region is missing, to the Denied Amount
    of the totals.  Every amount of the table, like their sum, is below
    2^53 in absolute value. *)
Theorem denied_by_region_table (df : DataFrame) (i v : nat) :
  index_of "Region" (columns df) = Some i ->
  index_of "Denied_amount" (columns df) = Some v ->
  numeric (map (at_col v) (rows df)) = true ->
  exact_amounts (map (at_col v) (rows df)) = true ->
  let keys := isort cell_leb (unique (dropna (map (at_col i) (rows df)))) in
  let table := map (fun g => (g, region_total df i v g)) keys in
  region_table df = Ok (Some table) /\
  StronglySorted (fun a b => cell_leb (fst a) (fst b) = true) table /\
  NoDup (map fst table) /\
  (forall g, In g (map fst table) <->
             isna g = false /\ exists r, In r (rows df) /\ at_col i r = g) /\
  zsum (map snd table) =
    zsum (map (fun r => amount_or_zero (at_col v r))
              (filter (fun r => present (at_col i r)) (rows df))) /\
  ((forall r, In r (rows df) -> present (at_col i r) = true) ->
   forall k, totals df = Ok k -> zsum (map snd table) = total_denied k) /\
  (forall g, Z.abs (region_total df i v g) < 2 ^ 53) /\
  Z.abs (zsum (map snd table)) < 2 ^ 53.
Proof.
  intros Hi Hv Hnum Hex keys table.
  assert (Hpk : Permutation keys (unique (dropna (map (at_col i) (rows df)))))
    by apply isort_perm.
  assert (Hnd : NoDup keys).
  { apply (Permutation_NoDup (Permutation_sym Hpk)). apply unique_NoDup. }
  assert (Hfst : map fst table = keys).
  { unfold table. rewrite map_map. simpl. apply map_id. }
  assert (Hkey : forall g, In g keys <->
            isna g = false /\ exists r, In r (rows df) /\ at_col i r = g).
  { intros g. split.
    - intros Hg. apply (Permutation_in _ Hpk) in Hg.
      apply unique_In, dropna_In in Hg. destruct Hg as [Hg Hn].
      apply in_map_iff in Hg. destruct Hg as [r [E Hr]].
      split; [exact Hn | exists r; auto].
    - intros [Hn [r [Hr E]]]. apply (Permutation_in _ (Permutation_sym Hpk)).
      apply unique_In, dropna_In. split; [| exact Hn].
      rewrite <- E. apply in_map. exact Hr. }
  assert (Hsum : zsum (map snd table) =
                 zsum (map (fun r => amount_or_zero (at_col v r))
                           (filter (fun r => present (at_col i r)) (rows df)))).
  { unfold table. rewrite map_map. simpl.
    rewrite <- (group_sums_total (at_col i)
                  (fun r => amount_or_zero (at_col v r)) keys
                  (filter (fun r => present (at_col i r)) (rows df)) Hnd).
    - f_equal. apply map_ext_in. intros g Hg. apply Hkey in Hg.
      destruct Hg as [Hn _]. unfold region_total. rewrite filter_filter.
      f_equal. f_equal. apply filter_ext. intros r. unfold present.
      destruct (cell_eqb (at_col i r) g) eqn:E; [| symmetry; apply andb_false_r].
      apply cell_eqb_eq in E. rewrite E, Hn. reflexivity.
    - intros r Hr. apply filter_In in Hr. destruct Hr as [Hr Hp].
      apply Hkey. unfold present in Hp. apply negb_true_iff in Hp.
      split; [exact Hp | exists r; auto]. }
  split.
  { unfold region_table, groupby_sum. rewrite (index_of_Some_mem _ _ _ Hi).
    rewrite (getitem_Some _ _ _ Hi), (getitem_Some _ _ _ Hv). cbn [bind].
    rewrite (mapM_ok _ (fun g => (g, region_total df i v g))); [reflexivity |].
    intros g _. rewrite (group_values_rows (at_col i) (at_col v)).
    rewrite (sum_numeric _ (numeric_filter _ _ _ Hnum)). cbn [bind].
    unfold region_total. rewrite present_values_zero, map_map. reflexivity. }
  split.
  { unfold table.
    apply (StronglySorted_map (fun a b => cell_leb a b = true));
      [intros a b H; exact H |].
    apply isort_sorted; [apply cell_leb_total | apply cell_leb_trans]. }
  split; [rewrite Hfst; exact Hnd |].
  split; [intros g; rewrite Hfst; apply Hkey |].
  split; [exact Hsum |].
  split;
    [| split;
       [intros g; unfold region_total; apply exact_subtotal; exact Hex
       | rewrite Hsum; apply exact_subtotal; exact Hex]].
  intros Hall k Hk. rewrite Hsum.
  rewrite (filter_all _ _ Hall).
  unfold totals in Hk.
  destruct (getitem df "Claimed_Amount") as [s1 |]; [| discriminate].
  cbn [bind] in Hk. destruct (sum s1); [| discriminate]. cbn [bind] in Hk.
  destruct (getitem df "Approved_Amount") as [s2 |]; [| discriminate].
  cbn [bind] in Hk. destruct (sum s2); [| discriminate]. cbn [bind] in Hk.
  rewrite (getitem_Some _ _ _ Hv) in Hk. cbn [bind] in Hk.
  rewrite (sum_numeric _ Hnum) in Hk. cbn [bind] in Hk.
  injection Hk as <-. simpl total_denied.
  rewrite present_values_zero, map_map. reflexivity.
Qed.

Lemma denied_by_region_table_witness :
  region_table sample_df = Ok (Some [(Str "North", 0); (Str "South", 2000)]) /\
  forall k, totals sample_df = Ok k ->
    zsum (map snd [(Str "North", 0); (Str "South", 2000)]) = total_denied k.
Proof.
  pose proof (denied_by_region_table sample_df 5 11 eq_refl eq_refl eq_refl
                eq_refl) as H.
  split; [apply H |].
  apply (proj1 (proj2 (proj2 (proj2 (proj2 (proj2 H)))))).
  intros r Hr. simpl in Hr. destruct Hr as [<- | [<- | []]]; reflexivity.
Defined.

(** X13.  On a frame whose [Denied_amount] column holds whole numbers
    that are added exactly (their absolute values add up to less than
    2^53), the amounts of all the denial categories add up to the denied
    amount of all the rows; with at most 10 categories the top denial
    reasons therefore account for the whole denied amount.  Every
    category amount, like the amount of all the rows, is below 2^53 in
    absolute value. *)
Theorem top_reasons_account (df : DataFrame) (k v : nat) :
  index_of "Denial_reason" (columns df) = Some k ->
  index_of "Denied_amount" (columns df) = Some v ->
  numeric (map (at_col v) (rows df)) = true ->
  exact_amounts (map (at_col v) (rows df)) = true ->
  summary_table (unknown_filled k df) = Ok (top_reasons df k v) /\
  zsum (map snd (reason_groups df k v)) =
    zsum (map (fun r => amount_or_zero (at_col v r)) (rows df)) /\
  ((List.length (unique (reasons df k)) <= 10)%nat ->
   zsum (map snd (top_reasons df k v)) =
     zsum (map (fun r => amount_or_zero (at_col v r)) (rows df))) /\
  (forall g, Z.abs (reason_total df k v g) < 2 ^ 53) /\
  Z.abs (zsum (map (fun r => amount_or_zero (at_col v r)) (rows df))) < 2 ^ 53.
Proof.
  intros Hk Hv Hnum Hex.
  assert (Hpk : Permutation (isort cell_leb (unique (reasons df k)))
                            (unique (reasons df k))) by apply isort_perm.
  assert (Hall : zsum (map snd (reason_groups df k v)) =
                 zsum (map (fun r => amount_or_zero (at_col v r)) (rows df))).
  { unfold reason_groups. rewrite map_map. simpl.
    apply (group_sums_total (fun r => spec_reason (at_col k r))
             (fun r => amount_or_zero (at_col v r))).
    - apply (Permutation_NoDup (Permutation_sym Hpk)). apply unique_NoDup.
    - intros r Hr. apply (Permutation_in _ (Permutation_sym Hpk)).
      apply unique_In. unfold reasons.
      apply (in_map (fun r0 => spec_reason (at_col k r0))). exact Hr. }
  split; [apply summary_table_eq; assumption |].
  split; [exact Hall |].
  split;
    [| split;
       [intros g; unfold reason_total; apply exact_subtotal; exact Hex
       | rewrite <- (filter_true (rows df)) at 1; apply exact_subtotal;
         exact Hex]].
  intros Hlen. rewrite <- Hall. unfold top_reasons, head.
  rewrite firstn_all2.
  - apply zsum_perm. apply Permutation_map. apply isort_perm.
  - unfold sort_values_desc.
    rewrite (Permutation_length (isort_perm _ (reason_groups df k v))).
    unfold reason_groups. rewrite length_map, (Permutation_length Hpk). exact Hlen.
Qed.

Lemma top_reasons_account_witness :
  zsum (map snd (top_reasons sample_df 12 11)) =
  zsum (map (fun r => amount_or_zero (at_col 11 r)) (rows sample_df)).
Proof.
  pose proof (top_reasons_account sample_df 12 11 eq_refl eq_refl eq_refl
                eq_refl) as [_ [_ [H _]]].
  apply H. simpl. lia.
Defined.

(* ===================================================================== *)
(** ** Normalising twice, the spreadsheet name, the trend of a date range *)

Section Idempotence.

Variable convert : cell -> option Timestamp.

Lemma to_datetime_cell_idem (c : cell) :
  to_datetime_cell convert (to_datetime_cell convert c) =
  to_datetime_cell convert c.
Proof.
  destruct c; simpl; try reflexivity; destruct (convert _); reflexivity.
Qed.

Lemma set_nth_twice (k : nat) (v w : cell) (r : list cell) :
  set_nth k v (set_nth k w r) = set_nth k v r.
Proof.
  revert r. induction k as [| k IH]; intros [| x r]; simpl; try reflexivity;
    rewrite IH; reflexivity.
Qed.

Lemma normalized_twice (k : nat) (df : DataFrame) :
  normalized convert k (normalized convert k df) = normalized convert k df.
Proof.
  unfold normalized. simpl. f_equal. rewrite map_map. apply map_ext.
  intros r. rewrite at_col_set_nth_same, to_datetime_cell_idem.
  apply set_nth_twice.
Qed.

End Idempotence.

(** X8.  The schema check and date normalisation of [load_data] are
    idempotent: applied to a frame they have returned, they return it
    unchanged; the [claim_date] column they return is a datetime
    column. *)
Theorem normalization_idempotent (convert : cell -> option Timestamp)
    (df loaded : DataFrame) :
  check_and_normalize convert df = Ok loaded ->
  check_and_normalize convert loaded = Ok loaded /\
  exists k, index_of "claim_date" (columns loaded) = Some k /\
            datetime (map (at_col k) (rows loaded)) = true.
Proof.
  intros H.
  assert (Hs : has_schema df = true).
  { destruct (missing_columns df) as [| c cs] eqn:Em.
    - apply missing_columns_nil. exact Em.
    - rewrite check_and_normalize_raise in H by (rewrite Em; discriminate).
      discriminate. }
  destruct (check_and_normalize_ok convert df Hs) as [k [Hk Hc]].
  rewrite Hc in H. injection H as <-.
  split.
  - destruct (check_and_normalize_ok convert (normalized convert k df) Hs)
      as [k' [Hk' Hc']].
    assert (k' = k) by (simpl in Hk'; congruence). subst k'.
    rewrite Hc'. rewrite normalized_twice. reflexivity.
  - exists k. split; [exact Hk |].
    unfold datetime. apply forallb_forall. intros c Hc0.
    simpl in Hc0. rewrite map_map in Hc0. apply in_map_iff in Hc0.
    destruct Hc0 as [r [<- _]]. rewrite at_col_set_nth_same.
    unfold to_datetime_cell.
    destruct (at_col k r); try reflexivity; destruct (convert _); reflexivity.
Qed.

Lemma normalization_idempotent_witness :
  check_and_normalize iso_convert sample_df = Ok sample_df.
Proof.
  apply (normalization_idempotent iso_convert sample_df sample_df).
  reflexivity.
Defined.

Section FileName.

Lemma prefix_csv_no_dot (c : ascii) (s : string) :
  Ascii.eqb c "." = false -> String.prefix ".csv" (String c s) = false.
Proof.
  intros H.
  change (String.prefix ".csv" (String c s))
    with (if ascii_dec "." c then String.prefix "csv" s else false).
  destruct (ascii_dec "." c) as [E | _]; [| reflexivity].
  subst c. discriminate H.
Qed.

End FileName.

(** X12.  For a file name [stem.csv] whose stem has no full stop, the
    spreadsheet download is named [stem.xlsx]; a name without any full
    stop is left as it is, so that both downloads then carry the same
    name. *)
Theorem excel_file_name_of_csv (stem : string) :
  no_dot stem = true ->
  excel_file_name (stem ++ ".csv") = stem ++ ".xlsx" /\
  excel_file_name stem = stem.
Proof.
  unfold excel_file_name, replace.
  induction stem as [| c stem IH]; intros H.
  - split; reflexivity.
  - simpl in H. apply andb_true_iff in H. destruct H as [Hc Hs].
    apply negb_true_iff in Hc. destruct (IH Hs) as [IH1 IH2].
    split.
    + change (String c stem ++ ".csv") with (String c (stem ++ ".csv")).
      cbn [replace_from]. rewrite (prefix_csv_no_dot c _ Hc), IH1.
      reflexivity.
    + cbn [replace_from]. rewrite (prefix_csv_no_dot c _ Hc), IH2.
      reflexivity.
Qed.

Lemma excel_file_name_of_csv_witness :
  excel_file_name "filtered_claims.csv" = "filtered_claims.xlsx" /\
  excel_file_name "filtered_claims" = "filtered_claims".
Proof.
  apply (excel_file_name_of_csv "filtered_claims"). reflexivity.
Defined.

Section TrendOfRange.

Lemma datetime_filter (h : list cell -> cell) (p : list cell -> bool)
    (rs : list (list cell)) :
  datetime (map h rs) = true -> datetime (map h (filter p rs)) = true.
Proof.
  unfold datetime. rewrite !forallb_forall. intros H c Hc.
  apply H. apply in_map_iff in Hc. destruct Hc as [r [<- Hr]].
  apply in_map. apply filter_In in Hr. tauto.
Qed.

Lemma month_index_mono (a b : Timestamp) :
  valid_date a = true -> valid_date b = true ->
  ts_leb a b = true -> month_index a <= month_index b.
Proof.
  intros Ha Hb H. apply valid_date_bounds in Ha, Hb. apply ts_leb_iff in H.
  unfold month_index. lia.
Qed.

Lemma fold_min_lower (i : Z) (rest : list Z) (lower : Z) :
  (forall x, In x (i :: rest) -> lower <= x) ->
  lower <= fold_right Z.min i rest.
Proof.
  induction rest as [| y rest IH]; simpl; intros H.
  - apply H. left. reflexivity.
  - apply Z.min_glb.
    + apply H. right. left. reflexivity.
    + apply IH. intros x [<- | Hx]; apply H; [left | right; right]; auto.
Qed.

Lemma fold_max_upper (i : Z) (rest : list Z) (upper : Z) :
  (forall x, In x (i :: rest) -> x <= upper) ->
  fold_right Z.max i rest <= upper.
Proof.
  induction rest as [| y rest IH]; simpl; intros H.
  - apply H. left. reflexivity.
  - apply Z.max_lub.
    + apply H. right. left. reflexivity.
    + apply IH. intros x [<- | Hx]; apply H; [left | right; right]; auto.
Qed.

End TrendOfRange.

(** X14.  After a filter with a bounded date range, on a frame with a
    datetime [claim_date] column and a numeric [Denied_amount] column,
    every kept row is dated inside the range, the monthly trend of the
    filtered frame is returned, and, the dates being valid calendar
    dates, every bucket of the trend is a month from the month of the
    start to the month of the end of the range. *)
Theorem trend_after_date_filter (df f : DataFrame) (sr ss : list cell)
    (start stop : Timestamp) (i j k v : nat) :
  index_of "Region" (columns df) = Some i ->
  index_of "Provider_Specialty" (columns df) = Some j ->
  index_of "claim_date" (columns df) = Some k ->
  index_of "Denied_amount" (columns df) = Some v ->
  datetime (map (at_col k) (rows df)) = true ->
  numeric (map (at_col v) (rows df)) = true ->
  filter_rows df sr ss [start; stop] = Ok f ->
  (forall r, In r (rows f) ->
     exists t, at_col k r = Ts t /\ ts_leb start t = true /\ ts_leb t stop = true) /\
  trend_table f = Ok (Some (monthly_trend f k v)) /\
  (valid_date start = true -> valid_date stop = true ->
   (forall r t, In r (rows df) -> at_col k r = Ts t -> valid_date t = true) ->
   forall label x, In (label, x) (monthly_trend f k v) ->
     month_index start <= month_index label <= month_index stop).
Proof.
  intros Hi Hj Hk Hv Hdt Hnum Hf.
  rewrite (filter_rows_closed df sr ss [start; stop] i j k Hi Hj Hk) in Hf.
  injection Hf as <-.
  set (rs := filter (kept sr ss [start; stop] i j k) (rows df)).
  assert (Hrows : forall r, In r rs ->
            In r (rows df) /\
            exists t, at_col k r = Ts t /\ ts_leb start t = true
                      /\ ts_leb t stop = true).
  { intros r Hr. apply filter_In in Hr. destruct Hr as [Hin Hkept].
    split; [exact Hin |]. unfold kept in Hkept.
    apply andb_true_iff in Hkept. destruct Hkept as [_ Hd].
    simpl in Hd. destruct (at_col k r) as [| | | t |]; try discriminate.
    apply andb_true_iff in Hd. exists t. tauto. }
  split; [intros r Hr; apply (Hrows r Hr) |].
  split.
  { apply trend_table_eq; try assumption.
    - apply datetime_filter. exact Hdt.
    - apply numeric_filter. exact Hnum.
    - unfold some_date_or_no_row, dated_months. simpl rows. fold rs.
      destruct rs as [| r rs'] eqn:E; [reflexivity |].
      destruct (Hrows r (or_introl eq_refl)) as [_ [t [Ht _]]].
      simpl. rewrite Ht. reflexivity. }
  intros Hvs Hve Hvalid label x Hin.
  unfold monthly_trend in Hin. apply in_map_iff in Hin.
  destruct Hin as [m [E Hm]]. injection E as <- _.
  rewrite month_end_index.
  assert (Hbound : forall m', In m' (dated_months (mkDF (columns df) rs) k) ->
                              month_index start <= m' <= month_index stop).
  { intros m' Hm'. unfold dated_months in Hm'. apply present_months_In in Hm'.
    simpl rows in Hm'. apply in_map_iff in Hm'. destruct Hm' as [r [Hc Hr]].
    destruct (Hrows r Hr) as [Hin [t [Ht [H1 H2]]]].
    rewrite Ht in Hc. injection Hc as <-.
    pose proof (Hvalid r t Hin Ht) as Hvt.
    split; apply month_index_mono; assumption. }
  unfold month_span in Hm.
  destruct (dated_months (mkDF (columns df) rs) k) as [| i0 rest];
    [destruct Hm |].
  apply zrange_In in Hm.
  pose proof (fold_min_lower i0 rest (month_index start)
                (fun x Hx => proj1 (Hbound x Hx))).
  pose proof (fold_max_upper i0 rest (month_index stop)
                (fun x Hx => proj2 (Hbound x Hx))).
  lia.
Qed.

Lemma trend_after_date_filter_witness :
  trend_table
    (mkDF (columns gap_df)
       (filter (kept [] [] [mkTs 2025 2 1; mkTs 2025 12 31] 5 6 2) (rows gap_df))) =
  Ok (Some [(mkTs 2025 3 31, 500)]).
Proof.
  pose proof (trend_after_date_filter gap_df
                (mkDF (columns gap_df)
                   (filter (kept [] [] [mkTs 2025 2 1; mkTs 2025 12 31] 5 6 2)
                      (rows gap_df)))
                [] [] (mkTs 2025 2 1) (mkTs 2025 12 31) 5 6 2 11
                eq_refl eq_refl eq_refl eq_refl eq_refl eq_refl eq_refl)
    as [_ [H _]].
  exact H.
Defined.

(* ===================================================================== *)
(** ** The filter on objects, and the bounds of the date input *)

(** X15.  On objects the filter computes [filter_rows] of the frame it is
    given and puts the result in an object created by the run; it writes
    to no object that existed before and leaves the dataset slot of the
    session as it was, also when it raises. *)
Theorem apply_filters_frame (st : Store) (l : ref) (df : DataFrame)
    (sr ss : list cell) (sd : list Timestamp) :
  nth_error (frames st) l = Some df ->
  exists st',
    snd (apply_filters l sr ss sd st) = st' /\
    session_data st' = session_data st /\
    (forall c df0, nth_error (frames st) c = Some df0 ->
                   nth_error (frames st') c = Some df0) /\
    match filter_rows df sr ss sd with
    | Ok f =>
        exists l', fst (apply_filters l sr ss sd st) = Ok l' /\
                   nth_error (frames st') l' = Some f /\
                   nth_error (frames st) l' = None
    | Raise e => fst (apply_filters l sr ss sd st) = Raise e
    end.
Proof.
  intros Hl.
  destruct (apply_filters_run st l df sr ss sd Hl) as [st' [Hext Hrun]].
  exists st'.
  assert (Hsnd : snd (apply_filters l sr ss sd st) = st').
  { destruct (filter_rows df sr ss sd).
    - destruct Hrun as [l' [Hrun _]]. rewrite Hrun. reflexivity.
    - rewrite Hrun. reflexivity. }
  split; [exact Hsnd |]. split; [apply Hext |].
  split; [intros c df0 Hc; apply (extends_lookup st st' c df0 Hext Hc) |].
  destruct (filter_rows df sr ss sd) as [f | e].
  - destruct Hrun as [l' [Hrun [Hf Hge]]]. exists l'. rewrite Hrun.
    split; [reflexivity |]. split; [exact Hf |].
    apply nth_error_None. exact Hge.
  - rewrite Hrun. reflexivity.
Qed.

Lemma apply_filters_frame_witness :
  exists st',
    snd (apply_filters 0%nat [Str "North"] [] []
           (mkStore [codes_df] (Some 0%nat))) = st' /\
    session_data st' = Some 0%nat /\
    nth_error (frames st') 0 = Some codes_df.
Proof.
  destruct (apply_filters_frame (mkStore [codes_df] (Some 0%nat)) 0%nat codes_df
              [Str "North"] [] [] eq_refl) as [st' [H1 [H2 [H3 _]]]].
  exists st'. split; [exact H1 |]. split; [exact H2 |].
  apply H3. reflexivity.
Defined.

Section Extremes.

Lemma ts_min_cases (a b : Timestamp) : ts_min a b = a \/ ts_min a b = b.
Proof. unfold ts_min. destruct (ts_leb a b); auto. Qed.

Lemma ts_max_cases (a b : Timestamp) : ts_max a b = a \/ ts_max a b = b.
Proof. unfold ts_max. destruct (ts_leb a b); auto. Qed.

Lemma fold_ts_min_In (t : Timestamp) (rest : list Timestamp) :
  In (fold_right ts_min t rest) (t :: rest).
Proof.
  induction rest as [| y rest IH]; [left; reflexivity |].
  change (fold_right ts_min t (y :: rest))
    with (ts_min y (fold_right ts_min t rest)).
  destruct (ts_min_cases y (fold_right ts_min t rest)) as [-> | ->].
  - right. left. reflexivity.
  - destruct IH as [H | H]; [left; exact H | right; right; exact H].
Qed.

Lemma fold_ts_max_In (t : Timestamp) (rest : list Timestamp) :
  In (fold_right ts_max t rest) (t :: rest).
Proof.
  induction rest as [| y rest IH]; [left; reflexivity |].
  change (fold_right ts_max t (y :: rest))
    with (ts_max y (fold_right ts_max t rest)).
  destruct (ts_max_cases y (fold_right ts_max t rest)) as [-> | ->].
  - right. left. reflexivity.
  - destruct IH as [H | H]; [left; exact H | right; right; exact H].
Qed.

Lemma datetimes_of_datetime (s : Series) :
  datetime s = true ->
  exists ts, datetimes s = Ok ts /\ forall t, In t ts <-> In (Ts t) s.
Proof.
  induction s as [| c s IH]; simpl; intros H.
  - exists []. split; [reflexivity |]. intros t. simpl. tauto.
  - apply andb_true_iff in H. destruct H as [Hc Hs].
    destruct (IH Hs) as [ts [Hts Hin]]. rewrite Hts.
    destruct c; try discriminate.
    + exists (t :: ts). split; [reflexivity |]. intros t'. simpl.
      rewrite Hin. split.
      * intros [-> | H]; auto.
      * intros [E | H]; [injection E as ->; auto | auto].
    + exists ts. split; [reflexivity |]. intros t'. rewrite Hin. simpl.
      split; [auto | intros [E | H]; [discriminate | exact H]].
Qed.

End Extremes.

(** X16.  On a frame with a datetime [claim_date] column the bounds
    offered to the date input are returned: both are the missing date
    when no row is dated; otherwise they are dates of the column, the
    first not after and the second not before any date of the column. *)
Theorem date_bounds_extremes (df : DataFrame) (k : nat) :
  index_of "claim_date" (columns df) = Some k ->
  datetime (map (at_col k) (rows df)) = true ->
  exists lo hi,
    date_bounds df = Ok (Some (lo, hi)) /\
    ((forall r, In r (rows df) -> at_col k r = NaT) -> lo = NaT /\ hi = NaT) /\
    forall r t, In r (rows df) -> at_col k r = Ts t ->
      exists a b, lo = Ts a /\ hi = Ts b /\
                  ts_leb a t = true /\ ts_leb t b = true /\
                  In (Ts a) (map (at_col k) (rows df)) /\
                  In (Ts b) (map (at_col k) (rows df)).
Proof.
  intros Hk Hdt. unfold date_bounds.
  rewrite (index_of_Some_mem _ _ _ Hk), (getitem_Some _ _ _ Hk). cbn [bind].
  unfold series_min, series_max.
  destruct (datetimes_of_datetime _ Hdt) as [ts [Hts Hin]].
  rewrite Hts. cbn [bind].
  eexists. eexists. split; [reflexivity |]. split.
  - intros Hall. destruct ts as [| t0 rest]; [split; reflexivity |].
    assert (H : In (Ts t0) (map (at_col k) (rows df)))
      by (apply Hin; left; reflexivity).
    apply in_map_iff in H. destruct H as [r [E Hr]].
    rewrite (Hall r Hr) in E. discriminate.
  - intros r t Hr Ht.
    assert (Hint : In t ts).
    { apply Hin. rewrite <- Ht. apply in_map. exact Hr. }
    destruct ts as [| t0 rest]; [destruct Hint |].
    exists (fold_right ts_min t0 rest), (fold_right ts_max t0 rest).
    split; [reflexivity |]. split; [reflexivity |].
    split; [apply fold_ts_min_le; exact Hint |].
    split; [apply fold_ts_max_ge; exact Hint |].
    split; apply Hin; [apply fold_ts_min_In | apply fold_ts_max_In].
Qed.

Lemma date_bounds_extremes_witness :
  exists lo hi,
    date_bounds gap_df = Ok (Some (lo, hi)) /\
    lo = Ts (mkTs 2025 1 1) /\ hi = Ts (mkTs 2025 3 20).
Proof.
  destruct (date_bounds_extremes gap_df 2 eq_refl eq_refl)
    as [lo [hi [H _]]].
  exists lo, hi. split; [exact H |].
  vm_compute in H. injection H as <- <-. split; reflexivity.
Defined.
